(** * fuzz.py: the randomized harness of the MLForensics targets

    A shallow embedding of [fuzz.py].  The harness draws inputs from the
    process-wide random source, calls one of five target functions inside a
    [try ... except Exception] boundary, judges the result with a per-target
    oracle and appends dictionaries ("issues") to a list.

    - Python values that reach an issue are terms of [pyval]; a [dict] is an
      association list in insertion order.
    - The random source, the filesystem and the list of issues of the running
      campaign form the state [hstate]; code runs in the state-and-exception
      monad [M].
    - The targets ([mining.makeChunks], ...) are opaque: a target is any
      function from its input and the world to an outcome and a new world.
      A target that is handed a list gets the list object: it may change
      it in place, and the harness reads the list again after the call.
    - The lines [main] sends to the logger are left out: [main] is its exit
      status together with the list [all_issues] it logs. *)

From Stdlib Require Import ZArith String Ascii List Lia Bool.
From Stdlib Require Import DecimalString DecimalZ.
From Stdlib Require Import SpecFloat.
From stdpp Require Import gmap strings list fin_maps.

Local Open Scope string_scope.
Local Open Scope Z_scope.

(** ** Python values *)

(** [float] is IEEE binary64; only its classification, the conversion from
    [int] and the product are used by the harness. *)
Definition pyfloat : Type := spec_float.

Definition float_prec : Z := 53.
Definition float_emax : Z := 1024.

Definition float_of_int (k : Z) : pyfloat :=
  binary_normalize float_prec float_emax k 0 false.

Definition float_mul (x y : pyfloat) : pyfloat :=
  SFmul float_prec float_emax x y.

(** [math.isnan] *)
Definition isnan (x : pyfloat) : bool :=
  match x with
  | S754_nan => true
  | _ => false
  end.

#[local] Set Warnings "-register-all".
Inductive pyval : Type :=
| PNone
| PInt (z : Z)
| PFloat (x : pyfloat)
| PStr (s : string)
| PList (l : list pyval)
| PDict (d : list (string * pyval)).

Definition dict : Type := list (string * pyval).

(** [d.get(k)] *)
Fixpoint dict_get (d : dict) (k : string) : option pyval :=
  match d with
  | [] => None
  | (k', v) :: d' => if String.eqb k' k then Some v else dict_get d' k
  end.

(** [d[k] = v]: an existing key keeps its position, a new key goes last. *)
Fixpoint dict_set (d : dict) (k : string) (v : pyval) : dict :=
  match d with
  | [] => [(k, v)]
  | (k', v') :: d' =>
      if String.eqb k' k then (k', v) :: d' else (k', v') :: dict_set d' k v
  end.

Definition dict_keys (d : dict) : list string := map fst d.

(** [str(n)] for an [int] *)
Definition str_of_int (n : Z) : string :=
  NilZero.string_of_int (Z.to_int n).

(** ** Exceptions *)

(** A raised object: the name of its class, its arguments as [repr] shows
    them, whether the class derives from [Exception] (only
    [KeyboardInterrupt], [SystemExit] and [GeneratorExit] among the built-in
    ones do not), and the truth value [bool(e)] of the instance: true unless
    the class defines [__bool__] or [__len__] to say otherwise, which no
    built-in exception does. *)
Record pyexc : Type := mkExc {
  exc_kind : string;
  exc_args : string;
  exc_Exception : bool;
  exc_truthy : bool
}.

(** [repr(e)], that is [BaseException.__repr__] *)
Definition repr (e : pyexc) : string :=
  exc_kind e +:+ "(" +:+ exc_args e +:+ ")".

Definition ValueError (msg : string) : pyexc := mkExc "ValueError" msg true true.
Definition IndexError (msg : string) : pyexc := mkExc "IndexError" msg true true.
Definition OverflowError (msg : string) : pyexc := mkExc "OverflowError" msg true true.
Definition FileNotFoundError (msg : string) : pyexc := mkExc "FileNotFoundError" msg true true.
Definition FileExistsError (msg : string) : pyexc := mkExc "FileExistsError" msg true true.
Definition KeyboardInterrupt : pyexc := mkExc "KeyboardInterrupt" "" false true.

(** ** The issue recorder *)

(** [record_issue]: the list is mutated in place, here the new list is the
    result.  [if error:] tests the truth value of [error]: false for [None]
    and for an instance whose class makes it falsy. *)
Definition record_issue (issues : list dict) (function_name detail : string)
    (payload : pyval) (error : option pyexc) : list dict :=
  let issue :=
    [("function", PStr function_name); ("detail", PStr detail);
     ("payload", payload)] in
  let issue :=
    match error with
    | Some e =>
        if exc_truthy e then dict_set issue "error" (PStr (repr e)) else issue
    | None => issue
    end in
  (issues ++ [issue])%list.

(** The dictionary [record_issue] appends, written out. *)
Definition issue_of (function_name detail : string) (payload : pyval)
    (error : option pyexc) : dict :=
  ([("function", PStr function_name); ("detail", PStr detail);
    ("payload", payload)]
   ++ match error with
      | Some e => if exc_truthy e then [("error", PStr (repr e))] else []
      | None => []
      end)%list.

(** ** The random source *)

(** The [random] module, seen through the two primitives the module's
    functions are built from: [_randbelow(n)] and the 53 random bits of
    [random()].  Both advance the generator. *)
Class RandomSource : Type := {
  rng : Type;
  randbelow : Z -> rng -> Z * rng;
  randbits53 : rng -> Z * rng;
  randbelow_range : forall n g, 0 < n -> 0 <= fst (randbelow n g) < n;
  randbits53_range : forall g, 0 <= fst (randbits53 g) < 2 ^ 53
}.

(** ** The filesystem *)

Record inode : Type := mkInode {
  is_dir : bool;
  st_size : Z
}.

(** [p] is the directory [d] or lies below it. *)
Definition in_tree (d p : string) : bool :=
  String.eqb p d || String.prefix (d +:+ "/") p.

(** [shutil.rmtree(d)] *)
Definition rmtree (d : string) (fs : gmap string inode) : gmap string inode :=
  filter (fun kv => in_tree d (fst kv) = false) fs.

(** ** Outcomes and the state-and-exception monad *)

(** How a computation ends: with a value, or with a raised object. *)
Inductive result (A : Type) : Type :=
| Ok (a : A)
| Exc (e : pyexc).
Arguments Ok {A} a.
Arguments Exc {A} e.

Section Monad.

Variable S : Type.

Definition M (A : Type) : Type := S -> result A * S.

Definition ret {A} (a : A) : M A := fun s => (Ok a, s).

Definition bind {A B} (c : M A) (k : A -> M B) : M B :=
  fun s =>
    match c s with
    | (Ok a, s') => k a s'
    | (Exc e, s') => (Exc e, s')
    end.

Definition raise {A} (e : pyexc) : M A := fun s => (Exc e, s).

(** The end of a call whose effects are done: its value, or the object it
    raised. *)
Definition ended {A} (r : result A) : M A := fun s => (r, s).

(** [try: body except Exception as exc: handler(exc)] *)
Definition try_except {A} (body : M A) (handler : pyexc -> M A) : M A :=
  fun s =>
    match body s with
    | (Ok a, s') => (Ok a, s')
    | (Exc e, s') => if exc_Exception e then handler e s' else (Exc e, s')
    end.

(** [try: body finally: cleanup] *)
Definition try_finally {A} (body : M A) (cleanup : M unit) : M A :=
  fun s =>
    match body s with
    | (r, s') =>
        match cleanup s' with
        | (Ok _, s'') => (r, s'')
        | (Exc e, s'') => (Exc e, s'')
        end
    end.

(** [for _ in range(n): body] *)
Fixpoint for_range (n : nat) (body : M unit) : M unit :=
  match n with
  | O => ret tt
  | Datatypes.S n' => bind body (fun _ => for_range n' body)
  end.

(** [[elem for _ in range(n)]] *)
Fixpoint list_comp {A} (n : nat) (elem : M A) : M (list A) :=
  match n with
  | O => ret []
  | Datatypes.S n' =>
      bind elem (fun x => bind (list_comp n' elem) (fun xs => ret (x :: xs)))
  end.

End Monad.

Arguments ret {S A} a.
Arguments bind {S A B} c k.
Arguments raise {S A} e.
Arguments ended {S A} r.
Arguments try_except {S A} body handler.
Arguments try_finally {S A} body cleanup.
Arguments for_range {S} n body.
Arguments list_comp {S A} n elem.

Declare Scope py_scope.
Delimit Scope py_scope with py.
Notation "x <- c ;; k" := (bind c (fun x => k))
  (at level 100, c at next level, k at level 200, right associativity) : py_scope.
Notation "c ;; k" := (bind c (fun _ => k))
  (at level 100, k at level 200, right associativity) : py_scope.

(** [range(n)] has [max(n, 0)] elements. *)
Definition range (n : Z) : nat := Z.to_nat n.

(** [len(l)] *)
Definition len {A} (l : list A) : Z := Z.of_nat (length l).

(** ** The [datetime] module *)

Record datetime : Type := mkDatetime {
  year : Z;
  month : Z;
  day : Z;
  hour : Z;
  minute : Z;
  second : Z
}.

Definition MAXORDINAL : Z := 3652059.
Definition DI400Y : Z := 146097.
Definition DI100Y : Z := 36524.
Definition DI4Y : Z := 1461.

Definition DAYS_IN_MONTH (m : Z) : Z :=
  nth (Z.to_nat m) [-1; 31; 28; 31; 30; 31; 30; 31; 31; 30; 31; 30; 31] 0.

Definition DAYS_BEFORE_MONTH (m : Z) : Z :=
  nth (Z.to_nat m) [-1; 0; 31; 59; 90; 120; 151; 181; 212; 243; 273; 304; 334] 0.

Definition is_leap (y : Z) : bool :=
  (y mod 4 =? 0) && (negb (y mod 100 =? 0) || (y mod 400 =? 0)).

Definition days_before_year (y : Z) : Z :=
  let y := y - 1 in y * 365 + y / 4 - y / 100 + y / 400.

Definition days_in_month (y m : Z) : Z :=
  if (m =? 2) && is_leap y then 29 else DAYS_IN_MONTH m.

Definition days_before_month (y m : Z) : Z :=
  DAYS_BEFORE_MONTH m + (if (2 <? m) && is_leap y then 1 else 0).

Definition ymd2ord (y m d : Z) : Z :=
  days_before_year y + days_before_month y m + d.

Definition ord2ymd (n : Z) : Z * Z * Z :=
  let n := n - 1 in
  let n400 := n / DI400Y in
  let n := n mod DI400Y in
  let y := n400 * 400 + 1 in
  let n100 := n / DI100Y in
  let n := n mod DI100Y in
  let n4 := n / DI4Y in
  let n := n mod DI4Y in
  let n1 := n / 365 in
  let n := n mod 365 in
  let y := y + n100 * 100 + n4 * 4 + n1 in
  if (n1 =? 4) || (n100 =? 4) then (y - 1, 12, 31)
  else
    let leapyear := (n1 =? 3) && (negb (n4 =? 24) || (n100 =? 3)) in
    let m := Z.shiftr (n + 50) 5 in
    let preceding :=
      DAYS_BEFORE_MONTH m + (if (2 <? m) && leapyear then 1 else 0) in
    if n <? preceding then
      let m := m - 1 in
      let preceding :=
        preceding
        - (DAYS_IN_MONTH m + (if (m =? 2) && leapyear then 1 else 0)) in
      (y, m, n - preceding + 1)
    else (y, m, n - preceding + 1).

Definition toordinal (d : datetime) : Z := ymd2ord (year d) (month d) (day d).

(** [s.zfill(w)] for a string without sign *)
Definition zfill (w : nat) (s : string) : string :=
  string_of_list_ascii (repeat "0"%char (w - String.length s)) +:+ s.

(** [d.isoformat()] for a naive [datetime] whose microsecond is 0 *)
Definition isoformat (d : datetime) : string :=
  zfill 4 (str_of_int (year d)) +:+ "-" +:+ zfill 2 (str_of_int (month d))
  +:+ "-" +:+ zfill 2 (str_of_int (day d)) +:+ "T"
  +:+ zfill 2 (str_of_int (hour d)) +:+ ":" +:+ zfill 2 (str_of_int (minute d))
  +:+ ":" +:+ zfill 2 (str_of_int (second d)).

(** ** The harness *)

Section Fuzz.

Context {RS : RandomSource}.

Local Open Scope py_scope.

(** What a target can see and change. *)
Record world : Type := mkWorld {
  w_rng : rng;
  w_fs : gmap string inode
}.

(** What the body of a fuzzer can see and change: the world and its local
    list [issues]. *)
Record hstate : Type := mkState {
  issues : list dict;
  env : world
}.

(** A target is opaque: any function of its arguments and the world that
    returns or raises.  This is the type of a target whose arguments are
    immutable (datetimes, strings, integers). *)
Definition target (I O : Type) : Type := I -> M world O.

(** A call that was handed a list object of type [A]: it returns or raises,
    and leaves the list, which it may have changed in place, and the
    world.  What the caller reads from its variable after the call is the
    list as the call left it.  Every trial builds a new list, and a call is
    taken not to reach the list of an earlier call: a payload stays as it
    was recorded. *)
Definition mutator (A O : Type) : Type := world -> result O * A * world.

(** A call from the body of a fuzzer: the callee has no access to the
    caller's local list. *)
Definition call {A} (c : M world A) : M hstate A :=
  fun s => let (r, w) := c (env s) in (r, mkState (issues s) w).

(** [record_issue(issues, ...)] on the local list *)
Definition record (function_name detail : string) (payload : pyval)
    (error : option pyexc) : M hstate unit :=
  fun s =>
    (Ok tt, mkState (record_issue (issues s) function_name detail payload error)
                    (env s)).

(** A call of a fuzzer: a fresh frame whose [issues] starts empty; the list
    is the value returned. *)
Definition frame (body : M hstate unit) : M world (list dict) :=
  fun w =>
    match body (mkState [] w) with
    | (Ok _, s) => (Ok (issues s), env s)
    | (Exc e, s) => (Exc e, env s)
    end.

(** *** The [random] module *)

Definition _randbelow (n : Z) : M world Z :=
  fun w =>
    let (r, g) := randbelow n (w_rng w) in (Ok r, mkWorld g (w_fs w)).

Definition randrange (start stop : Z) : M world Z :=
  let width := stop - start in
  if 0 <? width then (r <- _randbelow width ;; ret (start + r))
  else raise (ValueError "'empty range in randrange()'").

Definition randint (a b : Z) : M world Z := randrange a (b + 1).

Definition choice {A} (seq : list A) : M world A :=
  if len seq =? 0 then
    raise (IndexError "'Cannot choose from an empty sequence'")
  else
    i <- _randbelow (len seq) ;;
    match nth_error seq (Z.to_nat i) with
    | Some x => ret x
    | None => raise (IndexError "'list index out of range'")
    end.

Definition random : M world pyfloat :=
  fun w =>
    let (n, g) := randbits53 (w_rng w) in
    (Ok (binary_normalize float_prec float_emax n (-53) false),
     mkWorld g (w_fs w)).

(** *** [datetime] construction and arithmetic *)

(** [dt.datetime(y, m, d, H, Mi)] *)
Definition new_datetime (y m d H Mi : Z) : M world datetime :=
  if negb ((1 <=? y) && (y <=? 9999)) then
    raise (ValueError "'year is out of range'")
  else if negb ((1 <=? m) && (m <=? 12)) then
    raise (ValueError "'month must be in 1..12'")
  else if negb ((1 <=? d) && (d <=? days_in_month y m)) then
    raise (ValueError "'day is out of range for month'")
  else if negb ((0 <=? H) && (H <=? 23)) then
    raise (ValueError "'hour must be in 0..23'")
  else if negb ((0 <=? Mi) && (Mi <=? 59)) then
    raise (ValueError "'minute must be in 0..59'")
  else ret (mkDatetime y m d H Mi 0).

(** [d + dt.timedelta(days=n)] *)
Definition add_days (d : datetime) (n : Z) : M world datetime :=
  if negb ((-999999999 <=? n) && (n <=? 999999999)) then
    raise (OverflowError "'days out of range for timedelta'")
  else
    let o := toordinal d + n in
    if (0 <? o) && (o <=? MAXORDINAL) then
      let '(y, m, dd) := ord2ymd o in
      ret (mkDatetime y m dd (hour d) (minute d) (second d))
    else raise (OverflowError "'date value out of range'").

(** *** [tempfile.TemporaryDirectory] and [Path.stat] *)

(** The name [tempfile] picks depends on its own generator, not on the
    seeded one: it is a parameter. *)
Variable mkdtemp_name : gmap string inode -> string.

Definition mkdtemp : M world string :=
  fun w =>
    let d := mkdtemp_name (w_fs w) in
    match w_fs w !! d with
    | Some _ =>
        (Exc (FileExistsError "17, 'No usable temporary directory name found'"), w)
    | None => (Ok d, mkWorld (w_rng w) (<[d := mkInode true 4096]> (w_fs w)))
    end.

Definition cleanup (d : string) : M hstate unit :=
  fun s =>
    (Ok tt, mkState (issues s) (mkWorld (w_rng (env s)) (rmtree d (w_fs (env s))))).

(** [with tempfile.TemporaryDirectory() as temp_dir: body] *)
Definition TemporaryDirectory {A} (body : string -> M hstate A) : M hstate A :=
  temp_dir <- call mkdtemp ;;
  try_finally (body temp_dir) (cleanup temp_dir).

(** [Path(p).stat().st_size] *)
Definition stat_size (p : string) : M world Z :=
  fun w =>
    match w_fs w !! p with
    | Some i => (Ok (st_size i), w)
    | None => (Exc (FileNotFoundError "2, 'No such file or directory'"), w)
    end.

(** [chr(c)] for a code point below 256 *)
Definition chr (c : Z) : ascii := ascii_of_N (Z.to_N c).

(** [Path(d) / name] *)
Definition path_join (d name : string) : string := d +:+ "/" +:+ name.

(** *** The targets *)

(** [list(mining.makeChunks(data, size))], with the iteration of the
    chunks: all of it is code of the target *)
Variable makeChunks : list Z -> Z -> mutator (list Z) (list (list Z)).
Variable days_between : target (datetime * datetime) Z.
(** [int(mining.dumpContentIntoFile(content, path))] *)
Variable dumpContentIntoFile : target (string * string) Z.
Variable Average : list pyval -> mutator (list pyval) pyval.
Variable Median : list pyval -> mutator (list pyval) pyval.

(** *** [fuzz_make_chunks] *)

Definition gen_make_chunks : M world (list Z * Z) :=
  list_len <- randint 0 40 ;;
  data <- list_comp (range list_len) (randint (-1000) 1000) ;;
  r <- randint 1 (Z.max 1 list_len) ;;
  size <- choice [0; -1; r] ;;
  ret (data, size).

(** From the call on, [data] is the list as [makeChunks] left it: the
    checks and the handler read the object that was passed. *)
Definition check_make_chunks (data : list Z) (size : Z) : M hstate unit :=
  fun s =>
    let '(outcome, data, w) := makeChunks data size (env s) in
    try_except
      (chunks <- ended outcome ;;
       let flattened := concat chunks in
       (if (size <=? 0) && negb (bool_decide (chunks = [])) then
          record "makeChunks"
            "Expected empty result when chunk size is non-positive"
            (PDict [("size", PInt size); ("len", PInt (len data));
                    ("result_len", PInt (len chunks))]) None
        else ret tt) ;;
       (if (0 <? size) && negb (bool_decide (flattened = data)) then
          record "makeChunks" "Chunk reconstruction mismatch"
            (PDict [("size", PInt size); ("original_len", PInt (len data));
                    ("flattened_len", PInt (len flattened))]) None
        else ret tt))
      (fun exc =>
         record "makeChunks" "Exception during chunking"
           (PDict [("size", PInt size); ("len", PInt (len data))]) (Some exc))
      (mkState (issues s) w).

Definition trial_make_chunks : M hstate unit :=
  input <- call gen_make_chunks ;;
  check_make_chunks (fst input) (snd input).

Definition fuzz_make_chunks (iterations : Z) : M world (list dict) :=
  frame (for_range (range iterations) trial_make_chunks).

(** *** [fuzz_days_between] *)

Definition gen_days_between : M world (datetime * datetime) :=
  start_year <- randint 1990 2030 ;;
  mo <- randint 1 12 ;;
  d <- randint 1 28 ;;
  h <- randint 0 23 ;;
  mi <- randint 0 59 ;;
  start_date <- new_datetime start_year mo d h mi ;;
  delta_days <- randint (-1000) 1000 ;;
  end_date <- add_days start_date delta_days ;;
  ret (start_date, end_date).

Definition check_days_between (start_date end_date : datetime) : M hstate unit :=
  try_except
    (result <- call (days_between (start_date, end_date)) ;;
     if result <? 0 then
       record "days_between" "Negative delta returned"
         (PDict [("start", PStr (isoformat start_date));
                 ("end", PStr (isoformat end_date));
                 ("result", PInt result)]) None
     else ret tt)
    (fun exc =>
       record "days_between" "Exception during computation"
         (PDict [("start", PStr (isoformat start_date));
                 ("end", PStr (isoformat end_date))]) (Some exc)).

Definition trial_days_between : M hstate unit :=
  input <- call gen_days_between ;;
  check_days_between (fst input) (snd input).

Definition fuzz_days_between (iterations : Z) : M world (list dict) :=
  frame (for_range (range iterations) trial_days_between).

(** *** [fuzz_dump_content] *)

(** The content and the number that names the file. *)
Definition gen_dump_content : M world (string * Z) :=
  n <- randint 0 2048 ;;
  chars <- list_comp (range n) (c <- randint 32 126 ;; ret (chr c)) ;;
  k <- randint 0 999999 ;;
  ret (string_of_list_ascii chars, k).

Definition dump_path (temp_dir : string) (k : Z) : string :=
  path_join temp_dir ("fuzz-" +:+ str_of_int k +:+ ".txt").

Definition check_dump_content (content file_path : string) : M hstate unit :=
  try_except
    (written_size <- call (dumpContentIntoFile (content, file_path)) ;;
     on_disk <- call (stat_size file_path) ;;
     if negb (written_size =? on_disk) then
       record "dumpContentIntoFile" "Reported size mismatch"
         (PDict [("reported", PInt written_size); ("actual", PInt on_disk);
                 ("path", PStr file_path)]) None
     else ret tt)
    (fun exc =>
       record "dumpContentIntoFile" "Exception during write"
         (PDict [("path", PStr file_path);
                 ("len", PInt (Z.of_nat (String.length content)))])
         (Some exc)).

Definition trial_dump_content (temp_dir : string) : M hstate unit :=
  input <- call gen_dump_content ;;
  check_dump_content (fst input) (dump_path temp_dir (snd input)).

Definition fuzz_dump_content (iterations : Z) : M world (list dict) :=
  frame
    (TemporaryDirectory
       (fun temp_dir => for_range (range iterations) (trial_dump_content temp_dir))).

(** *** [_generate_numeric_list], [fuzz_average], [fuzz_median] *)

Definition _generate_numeric_list : M world (list pyval) :=
  a <- randint (-1000) 1000 ;;
  u <- random ;;
  k <- randint (-10) 10 ;;
  let options :=
    [PInt a; PFloat (float_mul u (float_of_int k)); PStr ""; PNone;
     PStr "noise"] in
  n <- randint 0 20 ;;
  list_comp (range n) (choice options).

(** [isinstance(result, float) and math.isnan(result)] *)
Definition is_float_nan (result : pyval) : bool :=
  match result with
  | PFloat x => isnan x
  | _ => false
  end.

(** The truth value of a list *)
Definition truthy {A} (l : list A) : bool :=
  match l with
  | [] => false
  | _ :: _ => true
  end.

(** From the call on, [payload] is the list as [Average] left it. *)
Definition check_average (payload : list pyval) : M hstate unit :=
  fun s =>
    let '(outcome, payload, w) := Average payload (env s) in
    try_except
      (result <- ended outcome ;;
       if is_float_nan result && truthy payload then
         record "Average" "Average returned NaN for payload with data"
           (PList payload) None
       else ret tt)
      (fun exc =>
         record "Average" "Exception during average" (PList payload) (Some exc))
      (mkState (issues s) w).

Definition trial_average : M hstate unit :=
  payload <- call _generate_numeric_list ;;
  check_average payload.

Definition fuzz_average (iterations : Z) : M world (list dict) :=
  frame (for_range (range iterations) trial_average).

(** From the call on, [payload] is the list as [Median] left it. *)
Definition check_median (payload : list pyval) : M hstate unit :=
  fun s =>
    let '(outcome, payload, w) := Median payload (env s) in
    try_except
      (result <- ended outcome ;;
       if is_float_nan result && truthy payload then
         record "Median" "Median returned NaN for payload with data"
           (PList payload) None
       else ret tt)
      (fun exc =>
         record "Median" "Exception during median" (PList payload) (Some exc))
      (mkState (issues s) w).

Definition trial_median : M hstate unit :=
  payload <- call _generate_numeric_list ;;
  check_median payload.

Definition fuzz_median (iterations : Z) : M world (list dict) :=
  frame (for_range (range iterations) trial_median).

(** *** [main] *)




End Fuzz.

(** ** A random source that replays a given sequence of draws *)

Definition replay_randbelow (n : Z) (g : list Z) : Z * list Z :=
  match g with
  | [] => (0, [])
  | x :: g' => (x mod n, g')
  end.

Definition replay_randbits53 (g : list Z) : Z * list Z :=
  match g with
  | [] => (0, [])
  | x :: g' => (x mod 2 ^ 53, g')
  end.

Lemma replay_randbelow_range n g : 0 < n -> 0 <= fst (replay_randbelow n g) < n.
Proof.
  intros Hn. destruct g as [|x g']; simpl; [lia|]. apply Z.mod_pos_bound; lia.
Qed.

Lemma replay_randbits53_range g : 0 <= fst (replay_randbits53 g) < 2 ^ 53.
Proof.
  destruct g as [|x g']; simpl; [lia|]. apply Z.mod_pos_bound; lia.
Qed.

#[export] Instance replay : RandomSource := {|
  rng := list Z;
  randbelow := replay_randbelow;
  randbits53 := replay_randbits53;
  randbelow_range := replay_randbelow_range;
  randbits53_range := replay_randbits53_range
|}.

(** ** Sample targets, used to run the model on concrete inputs *)

(** A chunker that returns the whole sequence as one chunk. *)
Definition one_chunk {RS : RandomSource}
    : list Z -> Z -> mutator (list Z) (list (list Z)) :=
  fun data _ w => (Ok [data], data, w).

(** A chunker that splits off the first element, whatever the size. *)
Definition head_chunk {RS : RandomSource}
    : list Z -> Z -> mutator (list Z) (list (list Z)) :=
  fun data _ w =>
    match data with
    | [] => (Ok [], data, w)
    | a :: l => (Ok [[a]; l], data, w)
    end.

(** A chunker that empties the list it is given and returns no chunk. *)
Definition clearing_chunker {RS : RandomSource}
    : list Z -> Z -> mutator (list Z) (list (list Z)) :=
  fun _ _ w => (Ok [], [], w).

(** A chunker that returns the sequence as one chunk, as it was given, and
    then appends a 0 to the list it was given. *)
Definition appending_chunker {RS : RandomSource}
    : list Z -> Z -> mutator (list Z) (list (list Z)) :=
  fun data _ w => (Ok [data], (data ++ [0])%list, w).

(** The signed number of days from the first date to the second. *)
Definition signed_days {RS : RandomSource} : target (datetime * datetime) Z :=
  fun x => ret (toordinal (snd x) - toordinal (fst x)).

(** A writer that stores the content and reports its length. *)
Definition write_file {RS : RandomSource} : target (string * string) Z :=
  fun x w =>
    let n := Z.of_nat (String.length (fst x)) in
    (Ok n, mkWorld (w_rng w) (<[snd x := mkInode false n]> (w_fs w))).

(** An aggregate that is NaN on every input. *)
Definition always_nan {RS : RandomSource} : list pyval -> mutator (list pyval) pyval :=
  fun payload w => (Ok (PFloat S754_nan), payload, w).

(** An aggregate that empties the list it is given and returns NaN. *)
Definition clearing_nan {RS : RandomSource} : list pyval -> mutator (list pyval) pyval :=
  fun _ w => (Ok (PFloat S754_nan), [], w).

(** Targets that raise on every input. *)
Definition failing {RS : RandomSource} {I O} (e : pyexc) : target I O :=
  fun _ => raise e.

Definition failing_chunker {RS : RandomSource} (e : pyexc)
    : list Z -> Z -> mutator (list Z) (list (list Z)) :=
  fun data _ w => (Exc e, data, w).

Definition failing_on_list {RS : RandomSource} (e : pyexc)
    : list pyval -> mutator (list pyval) pyval :=
  fun payload w => (Exc e, payload, w).

Definition disk_full : pyexc :=
  mkExc "OSError" "28, 'No space left on device'" true true.

(** An instance of [class Quiet(Exception)] whose [__bool__] returns
    [False]. *)
Definition quiet_error : pyexc := mkExc "Quiet" "'disk full'" true false.

Definition tmp_name (fs : gmap string inode) : string := "/tmp/tmpfuzz".

Definition world0 (draws : list Z) : world (RS := replay) := mkWorld draws ∅.

(** ** Vocabulary of the statements *)

(** A printable ASCII character *)
Definition printable (c : ascii) : Prop := (32 <= nat_of_ascii c <= 126)%nat.

(** The five values an element of a numeric list is chosen from, once the
    integer [a] and the float [x] of the call are drawn. *)
Definition numeric_option (a : Z) (x : pyfloat) (v : pyval) : Prop :=
  v = PInt a \/ v = PFloat x \/ v = PStr "" \/ v = PNone \/ v = PStr "noise".

(** [x] is the product of a [random()] and an integer in [-10, 10]. *)
Definition scaled_random (x : pyfloat) : Prop :=
  exists n k : Z,
    0 <= n < 2 ^ 53 /\ -10 <= k <= 10
    /\ x = float_mul (binary_normalize float_prec float_emax n (-53) false)
                     (float_of_int k).

(** The shape of a recorded issue: the keys, in order, with a non-empty
    name and a non-empty detail, and an ["error"] that is a [repr]. *)
Definition issue_shape (f : dict) : Prop :=
  (dict_keys f = ["function"; "detail"; "payload"]
   \/ dict_keys f = ["function"; "detail"; "payload"; "error"])
  /\ (exists fn, dict_get f "function" = Some (PStr fn) /\ fn <> "")
  /\ (exists d, dict_get f "detail" = Some (PStr d) /\ d <> "")
  /\ (exists payload, dict_get f "payload" = Some payload)
  /\ (dict_get f "error" = None
      \/ exists e : pyexc, dict_get f "error" = Some (PStr (repr e))).


Section Vocabulary.

Context {RS : RandomSource}.

(** [c] returns in every world, with a value that satisfies [P], and leaves
    the filesystem as it was. *)
Definition draws {A} (c : M world A) (P : A -> Prop) : Prop :=
  forall w : world,
    exists (a : A) (g : rng), c w = (Ok a, mkWorld g (w_fs w)) /\ P a.

(** However [c] ends, it has appended at most [n] issues to the local list
    and has left the earlier ones in place; the new ones satisfy [Q]. *)
Definition grows {A} (Q : dict -> Prop) (n : nat) (c : M hstate A) : Prop :=
  forall s : hstate,
    exists found : list dict,
      issues (snd (c s)) = (issues s ++ found)%list
      /\ (length found <= n)%nat /\ Forall Q found.

Definition appends (Q : dict -> Prop) (c : M hstate unit) : Prop :=
  grows Q 1 c.

(** Whatever [c] returns satisfies [P]. *)
Definition returns_only {S A} (P : A -> Prop) (c : M S A) : Prop :=
  forall (s : S) (a : A) (s' : S), c s = (Ok a, s') -> P a.









End Vocabulary.

(** ** Further vocabulary and sample targets *)

(** The ordinal [n] splits into a valid date of the years 1987 to 2033
    whose ordinal is [n]. *)
Definition ord_ok (n : Z) : bool :=
  let '(y, m, d) := ord2ymd n in
  (ymd2ord y m d =? n) && (1987 <=? y) && (y <=? 2033) && (1 <=? m)
  && (m <=? 12) && (1 <=? d) && (d <=? days_in_month y m).

(** [p] holds on [n], [n + 1], ..., [n + count - 1]. *)
Fixpoint all_from (n : Z) (count : nat) (p : Z -> bool) : bool :=
  match count with
  | O => true
  | Datatypes.S c => p n && all_from (n + 1) c p
  end.

(** An issue of the campaign of [fn]: recorded by an oracle, with one of
    the oracle's details and no ["error"], or recorded by the handler,
    with the detail of the fault and either no ["error"] or the [repr] of
    a raised object. *)
Definition issue_from (fn : string) (oracle_details : list string)
    (fault_detail : string) (f : dict) : Prop :=
  dict_get f "function" = Some (PStr fn)
  /\ ((exists d, In d oracle_details /\ dict_get f "detail" = Some (PStr d)
                 /\ dict_get f "error" = None)
      \/ (dict_get f "detail" = Some (PStr fault_detail)
          /\ (dict_get f "error" = None
              \/ exists e : pyexc, dict_get f "error" = Some (PStr (repr e))))).

(** A chunker that meets the oracle: nothing for a non-positive size, the
    whole sequence as one chunk otherwise. *)
Definition whole_chunk {RS : RandomSource}
    : list Z -> Z -> mutator (list Z) (list (list Z)) :=
  fun data size w => (Ok (if size <=? 0 then [] else [data]), data, w).

(** The number of days between two dates, whatever their order. *)
Definition abs_days {RS : RandomSource} : target (datetime * datetime) Z :=
  fun x => ret (Z.abs (toordinal (snd x) - toordinal (fst x))).


(** A writer that reports one byte more than it stores. *)
Definition overreporting_write {RS : RandomSource} : target (string * string) Z :=
  fun x w =>
    let n := Z.of_nat (String.length (fst x)) in
    (Ok (n + 1), mkWorld (w_rng w) (<[snd x := mkInode false n]> (w_fs w))).

(** A writer that reports a size and stores nothing. *)
Definition forgetful_write {RS : RandomSource} : target (string * string) Z :=
  fun x => ret (Z.of_nat (String.length (fst x))).

(** [int(s)] for a string of decimal digits with an optional sign *)
Definition int_of_str (s : string) : option Z :=
  option_map Z.of_int (NilZero.int_of_string s).

(** The number [n], written on [w] digits, has [w] characters and reads
    back as [n]. *)
Definition field_ok (w : nat) (n : Z) : bool :=
  Nat.eqb (String.length (zfill w (str_of_int n))) w
  && match int_of_str (zfill w (str_of_int n)) with
     | Some k => k =? n
     | None => false
     end.

(** The fields of [d] fit the widths of the ISO format. *)
Definition fits_iso (d : datetime) : Prop :=
  0 <= year d <= 9999 /\ 0 <= month d <= 99 /\ 0 <= day d <= 99
  /\ 0 <= hour d <= 99 /\ 0 <= minute d <= 99 /\ 0 <= second d <= 99.

(** * Properties *)

(** ** The monad *)

Section MonadFacts.

Context {S : Type}.


End MonadFacts.

(** ** The issue recorder *)

Lemma record_issue_app issues fn detail payload error :
  record_issue issues fn detail payload error
  = (issues ++ [issue_of fn detail payload error])%list.
Proof.
  unfold record_issue, issue_of.
  destruct error as [e|]; [destruct (exc_truthy e)|]; reflexivity.
Qed.

Lemma issue_of_fields fn detail payload error :
  dict_get (issue_of fn detail payload error) "function" = Some (PStr fn)
  /\ dict_get (issue_of fn detail payload error) "detail" = Some (PStr detail)
  /\ dict_get (issue_of fn detail payload error) "payload" = Some payload
  /\ dict_get (issue_of fn detail payload error) "error"
     = match error with
       | Some e => if exc_truthy e then Some (PStr (repr e)) else None
       | None => None
       end.
Proof.
  unfold issue_of.
  destruct error as [e|]; [destruct (exc_truthy e)|]; repeat split; reflexivity.
Qed.

Lemma issue_of_keys fn detail payload error :
  dict_keys (issue_of fn detail payload error)
  = (["function"; "detail"; "payload"]
     ++ match error with
        | Some e => if exc_truthy e then ["error"] else []
        | None => []
        end)%list.
Proof.
  unfold issue_of.
  destruct error as [e|]; [destruct (exc_truthy e)|]; reflexivity.
Qed.

(** ** One trial, after the input is drawn *)

Section Checks.

Context {RS : RandomSource}.

Lemma record_eq fn detail payload error (s : hstate) :
  record fn detail payload error s
  = (Ok tt, mkState (issues s ++ [issue_of fn detail payload error]) (env s)).
Proof. unfold record. now rewrite record_issue_app. Qed.

(** The boundary around a call: a returned value goes to the oracle, an
    [Exception] to the handler, anything else goes through. *)
Lemma try_call {O} (tgt : M world O) (oracle : O -> M hstate unit)
    (handler : pyexc -> M hstate unit) (s : hstate) :
  try_except (bind (call tgt) oracle) handler s
  = match tgt (env s) with
    | (Ok r, w) => try_except (oracle r) handler (mkState (issues s) w)
    | (Exc e, w) =>
        if exc_Exception e then handler e (mkState (issues s) w)
        else (Exc e, mkState (issues s) w)
    end.
Proof.
  unfold try_except, bind, call.
  destruct (tgt (env s)) as [[r|e] w]; reflexivity.
Qed.

(** The same once the call has ended. *)
Lemma try_ended {O} (r : result O) (oracle : O -> M hstate unit)
    (handler : pyexc -> M hstate unit) (s : hstate) :
  try_except (bind (ended r) oracle) handler s
  = match r with
    | Ok v => try_except (oracle v) handler s
    | Exc e => if exc_Exception e then handler e s else (Exc e, s)
    end.
Proof. unfold try_except, bind, ended. destruct r; reflexivity. Qed.

End Checks.

(** ** The oracles *)

Section Oracles.

Context {RS : RandomSource}.

Variable makeChunks : list Z -> Z -> mutator (list Z) (list (list Z)).
Variable days_between : target (datetime * datetime) Z.
Variable dumpContentIntoFile : target (string * string) Z.
Variable Average : list pyval -> mutator (list pyval) pyval.
Variable Median : list pyval -> mutator (list pyval) pyval.

(** C2 (amended). When [makeChunks] returns, the trial records a finding
    exactly when the size is non-positive and the list of chunks is
    non-empty, or the size is positive and the chunks put end to end differ
    from the input list as the call left it, which is the input sequence
    when the target does not change the list; it records one finding then,
    with the lengths, and none otherwise. *)
Theorem C2_make_chunks_oracle (data : list Z) (size : Z) (s : hstate)
    (chunks : list (list Z)) (left_ : list Z) (w : world) :
  makeChunks data size (env s) = (Ok chunks, left_, w) ->
  exists found : list dict,
    check_make_chunks makeChunks data size s
    = (Ok tt, mkState (issues s ++ found) w)
    /\ (length found <= 1)%nat
    /\ (found <> [] <->
        (size <= 0 /\ chunks <> []) \/ (0 < size /\ concat chunks <> left_))
    /\ (size <= 0 -> chunks <> [] ->
        found = [[("function", PStr "makeChunks");
                  ("detail",
                   PStr "Expected empty result when chunk size is non-positive");
                  ("payload",
                   PDict [("size", PInt size); ("len", PInt (len left_));
                          ("result_len", PInt (len chunks))])]])
    /\ (0 < size -> concat chunks <> left_ ->
        found = [[("function", PStr "makeChunks");
                  ("detail", PStr "Chunk reconstruction mismatch");
                  ("payload",
                   PDict [("size", PInt size);
                          ("original_len", PInt (len left_));
                          ("flattened_len", PInt (len (concat chunks)))])]]).
Proof.
  intros Hcall. unfold check_make_chunks. rewrite Hcall, try_ended.
  unfold try_except, bind.
  destruct (Z.leb_spec size 0) as [Hs|Hs];
    destruct (Z.ltb_spec 0 size) as [Hp|Hp]; try lia; simpl.
  - (* size <= 0 *)
    destruct (decide (chunks = [])) as [Hc|Hc].
    + rewrite (bool_decide_eq_true_2 _ Hc). simpl.
      exists []. rewrite app_nil_r. split; [reflexivity|]. split; [simpl; lia|].
      split; [|split; [contradiction|lia]].
      split; [congruence|]. intros [[_ H]|[H _]]; [contradiction|lia].
    + rewrite (bool_decide_eq_false_2 _ Hc). simpl.
      rewrite record_issue_app.
      eexists [_]. split; [reflexivity|]. split; [simpl; lia|].
      split; [|split; [reflexivity|lia]].
      split; [intros _; left; split; [lia|assumption]|discriminate].
  - (* 0 < size *)
    destruct (decide (concat chunks = left_)) as [Hc|Hc].
    + rewrite (bool_decide_eq_true_2 _ Hc). simpl.
      exists []. rewrite app_nil_r. split; [reflexivity|]. split; [simpl; lia|].
      split; [|split; [lia|contradiction]].
      split; [congruence|]. intros [[H _]|[_ H]]; [lia|contradiction].
    + rewrite (bool_decide_eq_false_2 _ Hc). simpl.
      rewrite record_issue_app.
      eexists [_]. split; [reflexivity|]. split; [simpl; lia|].
      split; [|split; [lia|reflexivity]].
      split; [intros _; right; split; [lia|assumption]|discriminate].
Qed.

(** C3. When [days_between] returns, the trial records exactly one finding
    "Negative delta returned" if the result is negative, whose payload holds
    both timestamps in ISO format and the result, and records nothing if the
    result is not negative. *)
Theorem C3_days_between_oracle (start_date end_date : datetime) (s : hstate)
    (result : Z) (w : world) :
  days_between (start_date, end_date) (env s) = (Ok result, w) ->
  let finding :=
    [("function", PStr "days_between");
     ("detail", PStr "Negative delta returned");
     ("payload",
      PDict [("start", PStr (isoformat start_date));
             ("end", PStr (isoformat end_date));
             ("result", PInt result)])] in
  (result < 0 ->
   check_days_between days_between start_date end_date s
   = (Ok tt, mkState (issues s ++ [finding]) w))
  /\ (0 <= result ->
      check_days_between days_between start_date end_date s
      = (Ok tt, mkState (issues s) w)).
Proof.
  intros Hcall finding. unfold check_days_between.
  rewrite try_call, Hcall. unfold try_except, bind. split; intros Hr.
  - destruct (Z.ltb_spec result 0); [|lia]. simpl.
    now rewrite record_issue_app.
  - destruct (Z.ltb_spec result 0); [lia|]. reflexivity.
Qed.

Lemma is_float_nan_spec (result : pyval) :
  is_float_nan result = true <-> result = PFloat S754_nan.
Proof.
  split; [|now intros ->].
  destruct result as [| |x| | |]; try discriminate.
  destruct x; try discriminate. reflexivity.
Qed.

(** C4 (amended). When [Average], respectively [Median], returns, the trial
    records a finding exactly when the payload list, as the call left it,
    is non-empty and the result is the float NaN: exactly one finding then,
    carrying that list, and none otherwise, so none for a NaN on an empty
    list. *)
Theorem C4_average_median_oracle (payload : list pyval) (s : hstate)
    (result : pyval) (left_ : list pyval) (w : world) :
  (Average payload (env s) = (Ok result, left_, w) ->
   (left_ <> [] /\ result = PFloat S754_nan ->
    check_average Average payload s
    = (Ok tt,
       mkState
         (issues s
          ++ [[("function", PStr "Average");
               ("detail", PStr "Average returned NaN for payload with data");
               ("payload", PList left_)]])
         w))
   /\ (left_ = [] \/ result <> PFloat S754_nan ->
       check_average Average payload s = (Ok tt, mkState (issues s) w)))
  /\ (Median payload (env s) = (Ok result, left_, w) ->
      (left_ <> [] /\ result = PFloat S754_nan ->
       check_median Median payload s
       = (Ok tt,
          mkState
            (issues s
             ++ [[("function", PStr "Median");
                  ("detail", PStr "Median returned NaN for payload with data");
                  ("payload", PList left_)]])
            w))
      /\ (left_ = [] \/ result <> PFloat S754_nan ->
          check_median Median payload s = (Ok tt, mkState (issues s) w))).
Proof.
  split; intros Hcall; [unfold check_average|unfold check_median];
    rewrite Hcall, try_ended; unfold try_except, bind;
    pose proof (is_float_nan_spec result) as Hnan;
    destruct (is_float_nan result); destruct left_ as [|x l]; simpl;
    (split; [intros [H1 H2]|intros [H|H]]);
    try reflexivity; try congruence;
    try (rewrite record_issue_app; reflexivity);
    try (exfalso; apply H; now apply Hnan);
    try (apply Hnan in H2; discriminate).
Qed.

End Oracles.

(** ** The generators *)

Section Generators.

Context {RS : RandomSource}.

Local Open Scope py_scope.

Lemma draws_ret {A} (a : A) (P : A -> Prop) : P a -> draws (ret a) P.
Proof. intros H [g fs]. exists a, g. now split. Qed.

Lemma draws_bind {A B} (c : M world A) (k : A -> M world B) P Q :
  draws c P -> (forall a, P a -> draws (k a) Q) -> draws (bind c k) Q.
Proof.
  intros Hc Hk w. destruct (Hc w) as (a & g & E & Ha).
  destruct (Hk a Ha (mkWorld g (w_fs w))) as (b & g' & E' & Hb).
  exists b, g'. unfold bind. rewrite E, E'. now split.
Qed.

Lemma draws_weaken {A} (c : M world A) (P Q : A -> Prop) :
  draws c P -> (forall a, P a -> Q a) -> draws c Q.
Proof.
  intros Hc HPQ w. destruct (Hc w) as (a & g & E & Ha). exists a, g. auto.
Qed.

Lemma draws_randbelow n : 0 < n -> draws (_randbelow n) (fun r => 0 <= r < n).
Proof.
  intros Hn w. unfold _randbelow.
  pose proof (randbelow_range n (w_rng w) Hn) as Hr.
  destruct (randbelow n (w_rng w)) as [r g]. exists r, g. now split.
Qed.

Lemma draws_randint a b : a <= b -> draws (randint a b) (fun r => a <= r <= b).
Proof.
  intros Hab. unfold randint, randrange.
  destruct (Z.ltb_spec 0 (b + 1 - a)); [|lia].
  eapply draws_bind; [apply draws_randbelow; lia|].
  intros r Hr. apply draws_ret. cbv beta in Hr. lia.
Qed.

Lemma draws_choice {A} (seq : list A) :
  seq <> [] -> draws (choice seq) (fun x => In x seq).
Proof.
  intros Hne. unfold choice, len.
  destruct (Z.eqb_spec (Z.of_nat (length seq)) 0) as [E|E].
  - destruct seq; [congruence|simpl in E; lia].
  - eapply draws_bind; [apply draws_randbelow; lia|].
    intros i Hi. simpl in Hi.
    destruct (nth_error seq (Z.to_nat i)) as [x|] eqn:Hx.
    + apply draws_ret. eapply nth_error_In; eauto.
    + apply nth_error_None in Hx. lia.
Qed.

Lemma draws_random :
  draws random
    (fun x => exists n, 0 <= n < 2 ^ 53
                        /\ x = binary_normalize float_prec float_emax n (-53) false).
Proof.
  intros w. unfold random.
  pose proof (randbits53_range (w_rng w)) as Hr.
  destruct (randbits53 (w_rng w)) as [n g]. eexists; exists g.
  split; [reflexivity|]. exists n. now split.
Qed.

Lemma draws_list_comp {A} (elem : M world A) (P : A -> Prop) n :
  draws elem P ->
  draws (list_comp n elem) (fun l => length l = n /\ Forall P l).
Proof.
  intros He. induction n as [|n IH]; simpl.
  - apply draws_ret. split; [reflexivity|constructor].
  - eapply draws_bind; [exact He|]. intros x Hx.
    eapply draws_bind; [exact IH|]. intros xs [Hl Hxs].
    apply draws_ret. split; [simpl; congruence|now constructor].
Qed.

(** What [draws] gives the caller of a generator. *)
Lemma call_draws {A} (c : M world A) (P : A -> Prop) (s : hstate) :
  draws c P ->
  exists a g,
    call c s = (Ok a, mkState (issues s) (mkWorld g (w_fs (env s)))) /\ P a.
Proof.
  intros Hc. destruct (Hc (env s)) as (a & g & E & Ha).
  exists a, g. unfold call. rewrite E. now split.
Qed.

End Generators.

(** ** Dates the generator can build *)

Lemma month_cases m : 1 <= m <= 12 ->
  m = 1 \/ m = 2 \/ m = 3 \/ m = 4 \/ m = 5 \/ m = 6 \/ m = 7 \/ m = 8
  \/ m = 9 \/ m = 10 \/ m = 11 \/ m = 12.
Proof. lia. Qed.

Lemma days_in_month_ge_28 y m : 1 <= m <= 12 -> 28 <= days_in_month y m.
Proof.
  intros Hm. unfold days_in_month.
  destruct (month_cases m Hm) as [->|[->|[->|[->|[->|[->|[->|[->|[->|[->|[->| ->]]]]]]]]]]];
    destruct (is_leap y); vm_compute; intros; discriminate.
Qed.

Lemma days_before_month_range y m : 1 <= m <= 12 -> 0 <= days_before_month y m <= 335.
Proof.
  intros Hm. unfold days_before_month.
  destruct (month_cases m Hm) as [->|[->|[->|[->|[->|[->|[->|[->|[->|[->|[->| ->]]]]]]]]]]];
    destruct (is_leap y); split; vm_compute; intros; discriminate.
Qed.

Lemma days_before_year_range y :
  1990 <= y <= 2030 -> 726000 <= days_before_year y <= 742000.
Proof.
  intros Hy. unfold days_before_year.
  pose proof (Z.div_mod (y - 1) 4 ltac:(lia)).
  pose proof (Z.mod_pos_bound (y - 1) 4 ltac:(lia)).
  pose proof (Z.div_mod (y - 1) 100 ltac:(lia)).
  pose proof (Z.mod_pos_bound (y - 1) 100 ltac:(lia)).
  pose proof (Z.div_mod (y - 1) 400 ltac:(lia)).
  pose proof (Z.mod_pos_bound (y - 1) 400 ltac:(lia)).
  lia.
Qed.

Lemma toordinal_range d :
  1990 <= year d <= 2030 -> 1 <= month d <= 12 -> 1 <= day d <= 28 ->
  726000 < toordinal d < 743000.
Proof.
  intros Hy Hm Hd. unfold toordinal, ymd2ord.
  pose proof (days_before_year_range _ Hy).
  pose proof (days_before_month_range (year d) _ Hm). lia.
Qed.

Section GeneratorFacts.

Context {RS : RandomSource}.

Local Open Scope py_scope.

Lemma draws_new_datetime y m d H Mi :
  1990 <= y <= 2030 -> 1 <= m <= 12 -> 1 <= d <= 28 ->
  0 <= H <= 23 -> 0 <= Mi <= 59 ->
  draws (new_datetime y m d H Mi) (fun x => x = mkDatetime y m d H Mi 0).
Proof.
  intros Hy Hm Hd HH HMi. unfold new_datetime.
  pose proof (days_in_month_ge_28 y m Hm).
  repeat match goal with
         | |- context [?a <=? ?b] => destruct (Z.leb_spec a b); [|lia]
         end.
  simpl. now apply draws_ret.
Qed.

Lemma draws_add_days d n :
  1990 <= year d <= 2030 -> 1 <= month d <= 12 -> 1 <= day d <= 28 ->
  -1000 <= n <= 1000 ->
  draws (add_days d n)
    (fun x => (year x, month x, day x) = ord2ymd (toordinal d + n)
              /\ hour x = hour d /\ minute x = minute d /\ second x = second d).
Proof.
  intros Hy Hm Hd Hn. unfold add_days.
  pose proof (toordinal_range d Hy Hm Hd). unfold MAXORDINAL.
  repeat match goal with
         | |- context [?a <=? ?b] => destruct (Z.leb_spec a b); [|lia]
         | |- context [?a <? ?b] => destruct (Z.ltb_spec a b); [|lia]
         end.
  simpl. destruct (ord2ymd (toordinal d + n)) as [[y m] dd].
  apply draws_ret. simpl. auto.
Qed.

(** The chunk-input generator never raises: a list of at most 40 integers
    in [-1000, 1000] and a size that is 0, -1 or between 1 and
    [max(1, len(data))]. *)
Lemma draws_gen_make_chunks :
  draws gen_make_chunks
    (fun x => len (fst x) <= 40
              /\ Forall (fun v => -1000 <= v <= 1000) (fst x)
              /\ (snd x = 0 \/ snd x = -1
                  \/ 1 <= snd x <= Z.max 1 (len (fst x)))).
Proof.
  unfold gen_make_chunks.
  eapply draws_bind; [apply (draws_randint 0 40); lia|]. intros list_len Hl.
  eapply draws_bind;
    [apply draws_list_comp, (draws_randint (-1000) 1000); lia|].
  intros data [Hlen Hdata].
  eapply draws_bind; [apply (draws_randint 1 (Z.max 1 list_len)); lia|].
  intros r Hr.
  eapply draws_bind; [apply draws_choice; discriminate|].
  intros size Hsize. apply draws_ret. simpl.
  assert (len data = list_len) as ->
    by (unfold len, range in *; cbv beta in Hl; lia).
  split; [cbv beta in Hl; lia|]. split; [exact Hdata|].
  simpl in Hsize. cbv beta in Hr. intuition lia.
Qed.

(** The date-pair generator never raises. *)
Lemma draws_gen_days_between :
  draws gen_days_between
    (fun x => 1990 <= year (fst x) <= 2030 /\ 1 <= month (fst x) <= 12
              /\ 1 <= day (fst x) <= 28 /\ 0 <= hour (fst x) <= 23
              /\ 0 <= minute (fst x) <= 59 /\ second (fst x) = 0
              /\ exists delta_days, -1000 <= delta_days <= 1000
                   /\ (year (snd x), month (snd x), day (snd x))
                      = ord2ymd (toordinal (fst x) + delta_days)).
Proof.
  unfold gen_days_between.
  eapply draws_bind; [apply (draws_randint 1990 2030); lia|]. intros y Hy.
  eapply draws_bind; [apply (draws_randint 1 12); lia|]. intros m Hm.
  eapply draws_bind; [apply (draws_randint 1 28); lia|]. intros d Hd.
  eapply draws_bind; [apply (draws_randint 0 23); lia|]. intros h Hh.
  eapply draws_bind; [apply (draws_randint 0 59); lia|]. intros mi Hmi.
  cbv beta in *.
  eapply draws_bind; [apply draws_new_datetime; assumption|].
  intros start_date ->.
  eapply draws_bind; [apply (draws_randint (-1000) 1000); lia|].
  intros delta Hdelta. cbv beta in Hdelta.
  eapply draws_bind; [apply draws_add_days; simpl; assumption|].
  intros end_date (Hymd & _). apply draws_ret. simpl.
  repeat (split; [assumption || reflexivity|]). exists delta. now split.
Qed.

(** The text-payload generator never raises: at most 2048 printable
    characters and a file number in [0, 999999]. *)
Lemma draws_gen_dump_content :
  draws gen_dump_content
    (fun x => (String.length (fst x) <= 2048)%nat
              /\ Forall printable (list_ascii_of_string (fst x))
              /\ 0 <= snd x <= 999999).
Proof.
  unfold gen_dump_content.
  eapply draws_bind; [apply (draws_randint 0 2048); lia|]. intros n Hn.
  eapply draws_bind.
  { apply (draws_list_comp _ printable).
    eapply draws_bind; [apply (draws_randint 32 126); lia|].
    intros c Hc. apply draws_ret. cbv beta in Hc.
    unfold printable, chr, nat_of_ascii.
    rewrite N_ascii_embedding; lia. }
  intros chars [Hlen Hchars].
  eapply draws_bind; [apply (draws_randint 0 999999); lia|]. intros k Hk.
  apply draws_ret. simpl.
  rewrite list_ascii_of_string_of_list_ascii.
  split; [|split; assumption].
  rewrite <- (list_ascii_of_string_of_list_ascii chars) in Hlen.
  assert (forall s, length (list_ascii_of_string s) = String.length s) as Hls
    by (induction s; simpl; congruence).
  rewrite Hls in Hlen. unfold range in Hlen. cbv beta in Hn. lia.
Qed.

End GeneratorFacts.

(** ** The numeric-noise generator *)

Section NumericList.

Context {RS : RandomSource}.

Lemma generate_numeric_list_draws :
  draws _generate_numeric_list
    (fun l =>
       (length l <= 20)%nat
       /\ exists (a : Z) (x : pyfloat),
            -1000 <= a <= 1000 /\ scaled_random x
            /\ Forall (numeric_option a x) l).
Proof.
  unfold _generate_numeric_list.
  eapply draws_bind; [apply (draws_randint (-1000) 1000); lia|]. intros a Ha.
  eapply draws_bind; [apply draws_random|]. intros u (n & Hn & ->).
  eapply draws_bind; [apply (draws_randint (-10) 10); lia|]. intros k Hk.
  eapply draws_bind; [apply (draws_randint 0 20); lia|]. intros len_ Hlen.
  cbv beta in *.
  eapply draws_weaken;
    [apply draws_list_comp, draws_choice; discriminate|].
  intros l [Hl Hall]. split; [unfold range in Hl; lia|].
  eexists a, _. split; [exact Ha|]. split; [exists n, k; auto|].
  eapply Forall_impl; [exact Hall|]. intros v Hv. unfold numeric_option.
  simpl in Hv. intuition auto.
Qed.


End NumericList.


(** ** The destination paths *)

Lemma append_length s t :
  String.length (s +:+ t) = (String.length s + String.length t)%nat.
Proof. induction s as [|a s IH]; [reflexivity|simpl; congruence]. Qed.


Lemma append_inj_l s t1 t2 : s +:+ t1 = s +:+ t2 -> t1 = t2.
Proof. induction s as [|a s IH]; simpl; intros H; [exact H|]. injection H. auto. Qed.




(** ** What a trial appends and what leaves it *)

Lemma issue_of_shape fn detail payload error :
  fn <> "" -> detail <> "" -> issue_shape (issue_of fn detail payload error).
Proof.
  intros Hfn Hd. unfold issue_shape. rewrite issue_of_keys.
  destruct (issue_of_fields fn detail payload error) as (E1 & E2 & E3 & E4).
  rewrite E1, E2, E3, E4.
  split; [destruct error as [e|]; [destruct (exc_truthy e)|]; auto|].
  split; [eauto|]. split; [eauto|]. split; [eauto|].
  destruct error as [e|]; [destruct (exc_truthy e)|]; simpl; eauto.
Qed.

Section RaisesOnly.

Context {S : Type}.






End RaisesOnly.

Section Trials.

Context {RS : RandomSource}.

Variable mkdtemp_name : gmap string inode -> string.
Variable makeChunks : list Z -> Z -> mutator (list Z) (list (list Z)).
Variable days_between : target (datetime * datetime) Z.
Variable dumpContentIntoFile : target (string * string) Z.
Variable Average : list pyval -> mutator (list pyval) pyval.
Variable Median : list pyval -> mutator (list pyval) pyval.





Lemma appends_call_bind {A} (Q : dict -> Prop) (gen : M world A)
    (check : A -> M hstate unit) :
  (forall a, appends Q (check a)) -> appends Q (bind (call gen) check).
Proof.
  intros Hc s. unfold bind, call.
  destruct (gen (env s)) as [[a|e] w].
  - apply (Hc a (mkState (issues s) w)).
  - exists []. simpl. rewrite app_nil_r. repeat split; [lia|constructor].
Qed.


Local Ltac found_none :=
  exists []; simpl; rewrite app_nil_r; repeat split; [lia|constructor].

Local Ltac found_one :=
  simpl; rewrite ?record_issue_app; eexists [_];
  split; [reflexivity|]; split; [simpl; lia|];
  constructor; [apply issue_of_shape; discriminate|constructor].

Local Ltac on_raise e :=
  destruct (exc_Exception e); [found_one|found_none].

Lemma appends_check_make_chunks data size :
  appends issue_shape (check_make_chunks makeChunks data size).
Proof.
  intros s. unfold check_make_chunks.
  destruct (makeChunks data size (env s)) as [[[chunks|e] left_] w];
    rewrite try_ended; [|on_raise e].
  unfold try_except, bind.
  destruct (Z.leb_spec size 0); destruct (Z.ltb_spec 0 size); try lia; simpl.
  - destruct (bool_decide (chunks = [])); [found_none|found_one].
  - destruct (bool_decide (concat chunks = left_)); [found_none|found_one].
Qed.

Lemma appends_check_days_between start_date end_date :
  appends issue_shape (check_days_between days_between start_date end_date).
Proof.
  intros s. unfold check_days_between. rewrite try_call.
  destruct (days_between (start_date, end_date) (env s)) as [[r|e] w];
    [|on_raise e].
  unfold try_except, bind. destruct (r <? 0); [found_one|found_none].
Qed.

Lemma appends_check_dump_content content file_path :
  appends issue_shape (check_dump_content dumpContentIntoFile content file_path).
Proof.
  intros s. unfold check_dump_content. rewrite try_call.
  destruct (dumpContentIntoFile (content, file_path) (env s)) as [[n|e] w];
    [|on_raise e].
  rewrite try_call. unfold stat_size. simpl.
  destruct (w_fs w !! file_path) as [i|].
  - unfold try_except. destruct (n =? st_size i); [found_none|found_one].
  - found_one.
Qed.

Lemma appends_check_average payload :
  appends issue_shape (check_average Average payload).
Proof.
  intros s. unfold check_average.
  destruct (Average payload (env s)) as [[[r|e] left_] w];
    rewrite try_ended; [|on_raise e].
  unfold try_except, bind.
  destruct (is_float_nan r && truthy left_); [found_one|found_none].
Qed.

Lemma appends_check_median payload :
  appends issue_shape (check_median Median payload).
Proof.
  intros s. unfold check_median.
  destruct (Median payload (env s)) as [[[r|e] left_] w];
    rewrite try_ended; [|on_raise e].
  unfold try_except, bind.
  destruct (is_float_nan r && truthy left_); [found_one|found_none].
Qed.

(** *** Campaigns *)

Lemma grows_for_range (Q : dict -> Prop) (body : M hstate unit) n :
  appends Q body -> grows Q n (for_range n body).
Proof.
  intros Hb. induction n as [|n IH]; intros s; simpl.
  - exists []. rewrite app_nil_r. repeat split; [simpl; lia|constructor].
  - unfold bind. destruct (Hb s) as (f1 & E1 & L1 & Q1).
    destruct (body s) as [[[]|e] s1]; simpl in E1.
    + destruct (IH s1) as (f2 & E2 & L2 & Q2).
      exists (f1 ++ f2)%list. rewrite E2, E1, app_assoc.
      split; [reflexivity|]. split; [rewrite length_app; lia|].
      now apply Forall_app.
    + exists f1. simpl. split; [exact E1|]. split; [lia|exact Q1].
Qed.

Lemma grows_TemporaryDirectory {A} (Q : dict -> Prop) n
    (body : string -> M hstate A) :
  (forall d, grows Q n (body d)) ->
  grows Q n (TemporaryDirectory mkdtemp_name body).
Proof.
  intros Hb s. unfold TemporaryDirectory, bind, call, mkdtemp.
  destruct (w_fs (env s) !! mkdtemp_name (w_fs (env s))).
  - exists []. simpl. rewrite app_nil_r. repeat split; [lia|constructor].
  - unfold try_finally, cleanup.
    match goal with
    | |- context [body ?d ?s0] =>
        destruct (Hb d s0) as (found & E & L & HQ); destruct (body d s0) as [r s1]
    end.
    exists found. simpl in *. auto.
Qed.

Lemma frame_grows (Q : dict -> Prop) n (body : M hstate unit) :
  grows Q n body ->
  returns_only (fun l => (length l <= n)%nat /\ Forall Q l) (frame body).
Proof.
  intros Hb w l w' H. unfold frame in H.
  destruct (Hb (mkState [] w)) as (found & E & L & HQ).
  destruct (body (mkState [] w)) as [[[]|e] s1]; inversion H; subst.
  simpl in E. rewrite E. simpl. auto.
Qed.

Lemma appends_trial_make_chunks : appends issue_shape (trial_make_chunks makeChunks).
Proof. apply appends_call_bind. intros a. apply appends_check_make_chunks. Qed.

Lemma appends_trial_days_between :
  appends issue_shape (trial_days_between days_between).
Proof. apply appends_call_bind. intros a. apply appends_check_days_between. Qed.

Lemma appends_trial_dump_content temp_dir :
  appends issue_shape (trial_dump_content dumpContentIntoFile temp_dir).
Proof. apply appends_call_bind. intros a. apply appends_check_dump_content. Qed.

Lemma appends_trial_average : appends issue_shape (trial_average Average).
Proof. apply appends_call_bind. intros a. apply appends_check_average. Qed.

Lemma appends_trial_median : appends issue_shape (trial_median Median).
Proof. apply appends_call_bind. intros a. apply appends_check_median. Qed.

(** *** Faults *)









(** *** What the handler does not catch *)


















(** *** The run *)





Lemma returns_only_bind {S A B} (P : B -> Prop) (c : M S A) (k : A -> M S B) :
  (forall a, returns_only P (k a)) -> returns_only P (bind c k).
Proof.
  intros Hk s b s' H. unfold bind in H.
  destruct (c s) as [[a|e] s1]; [eapply Hk; eauto|discriminate].
Qed.


Lemma fuzz_loop_returns (Q : dict -> Prop) (trial : M hstate unit) iterations :
  appends Q trial ->
  returns_only (fun l => (length l <= range iterations)%nat /\ Forall Q l)
    (frame (for_range (range iterations) trial)).
Proof. intros H. now apply frame_grows, grows_for_range. Qed.

Lemma fuzz_dump_content_returns iterations :
  returns_only
    (fun l => (length l <= range iterations)%nat /\ Forall issue_shape l)
    (fuzz_dump_content mkdtemp_name dumpContentIntoFile iterations).
Proof.
  apply frame_grows, grows_TemporaryDirectory. intros d.
  apply grows_for_range, appends_trial_dump_content.
Qed.


(** *** The temporary directory *)

Lemma rmtree_lookup d fs p : in_tree d p = true -> rmtree d fs !! p = None.
Proof.
  intros Hp. unfold rmtree. apply map_lookup_filter_None_2.
  right. intros i _. simpl. congruence.
Qed.

Lemma in_tree_self d : in_tree d d = true.
Proof. unfold in_tree. now rewrite String.eqb_refl. Qed.

(** ** The claims about faults, issues and resources *)



(** C6. A call of the issue recorder leaves the list with the earlier
    entries in place and exactly one new issue at its end, changes nothing
    else of the state and returns rather than raises; the new issue holds
    the name, the detail and the payload.  The rendering of the error is
    stored only for an error that tests true: called with [quiet_error], an
    [Exception] whose class makes its instances falsy, the recorder appends
    an issue without ["error"], where the claim has the rendering
    ["Quiet('disk full')"]. *)
Theorem C6_falsy_error_not_rendered :
  (forall (s : hstate) (function_name detail : string) (payload : pyval)
          (error : option pyexc),
      exists f : dict,
        record function_name detail payload error s
        = (Ok tt, mkState (issues s ++ [f]) (env s))
        /\ record_issue (issues s) function_name detail payload error
           = (issues s ++ [f])%list
        /\ take (length (issues s))
             (record_issue (issues s) function_name detail payload error)
           = issues s
        /\ length (record_issue (issues s) function_name detail payload error)
           = Datatypes.S (length (issues s))
        /\ dict_get f "function" = Some (PStr function_name)
        /\ dict_get f "detail" = Some (PStr detail)
        /\ dict_get f "payload" = Some payload
        /\ dict_get f "error"
           = match error with
             | Some e =>
                 if exc_truthy e
                 then Some (PStr (exc_kind e +:+ "(" +:+ exc_args e +:+ ")"))
                 else None
             | None => None
             end)
  /\ exc_Exception quiet_error = true
  /\ repr quiet_error = "Quiet('disk full')"
  /\ record_issue [] "dumpContentIntoFile" "Exception during write"
       (PDict [("path", PStr "/tmp/tmpfuzz/fuzz-7.txt"); ("len", PInt 9)])
       (Some quiet_error)
     = [[("function", PStr "dumpContentIntoFile");
         ("detail", PStr "Exception during write");
         ("payload",
          PDict [("path", PStr "/tmp/tmpfuzz/fuzz-7.txt"); ("len", PInt 9)])]].
Proof.
  split; [|repeat split; reflexivity].
  intros s function_name detail payload error.
  exists (issue_of function_name detail payload error).
  split; [apply record_eq|]. rewrite record_issue_app.
  split; [reflexivity|]. split; [now rewrite take_app_length|].
  split; [rewrite length_app; simpl; lia|]. apply issue_of_fields.
Qed.


(** C9. Once [mkdtemp] has created the temporary directory of the
    content-dump campaign, the campaign ends, by return or by a raised
    object, whatever the target did in any trial, in a world where neither
    the directory nor any path below it exists. *)
Theorem C9_temp_dir_removed (iterations : Z) (w : world) :
  w_fs w !! mkdtemp_name (w_fs w) = None ->
  let temp_dir := mkdtemp_name (w_fs w) in
  let after :=
    snd (fuzz_dump_content mkdtemp_name dumpContentIntoFile iterations w) in
  w_fs after !! temp_dir = None
  /\ forall p : string, in_tree temp_dir p = true -> w_fs after !! p = None.
Proof.
  intros Hfree temp_dir after.
  assert (forall p, in_tree temp_dir p = true -> w_fs after !! p = None) as H.
  { intros p Hp. subst after temp_dir.
    unfold fuzz_dump_content, frame, TemporaryDirectory, bind, call, mkdtemp.
    simpl. rewrite Hfree. unfold try_finally, cleanup.
    match goal with
    | |- context [for_range ?n ?b ?s0] =>
        destruct (for_range n b s0) as [[[]|e] s1]
    end; simpl; now apply rmtree_lookup. }
  split; [apply H, in_tree_self|exact H].
Qed.


End Trials.

(** ** The claims on concrete runs *)



(** C2, as stated, fails both ways.  A chunker that empties the list it is
    given and returns no chunk is not flagged, although the chunks put end
    to end differ from the original sequence; a chunker that returns the
    original sequence as one chunk and then appends to the list is flagged,
    although the chunks put end to end are the original sequence. *)
Lemma C2_compared_with_the_list_after_the_call :
  (clearing_chunker [1; 2; 3] 2 (world0 []) = (Ok [], [], world0 [])
   /\ 0 < 2
   /\ concat ([] : list (list Z)) <> [1; 2; 3]
   /\ check_make_chunks clearing_chunker [1; 2; 3] 2 (mkState [] (world0 []))
      = (Ok tt, mkState [] (world0 [])))
  /\ (appending_chunker [1; 2; 3] 2 (world0 [])
      = (Ok [[1; 2; 3]], [1; 2; 3; 0], world0 [])
      /\ concat [[1; 2; 3]] = [1; 2; 3]
      /\ check_make_chunks appending_chunker [1; 2; 3] 2 (mkState [] (world0 []))
         = (Ok tt,
            mkState
              [[("function", PStr "makeChunks");
                ("detail", PStr "Chunk reconstruction mismatch");
                ("payload",
                 PDict [("size", PInt 2); ("original_len", PInt 4);
                        ("flattened_len", PInt 3)])]]
              (world0 []))).
Proof.
  split.
  - split; [reflexivity|]. split; [lia|]. split; [discriminate|reflexivity].
  - split; [reflexivity|]. split; reflexivity.
Qed.

Lemma C2_witness :
  head_chunk [1; 2; 3] 0 (world0 []) = (Ok [[1]; [2; 3]], [1; 2; 3], world0 [])
  /\ exists found : list dict,
       check_make_chunks head_chunk [1; 2; 3] 0 (mkState [] (world0 []))
       = (Ok tt, mkState ([] ++ found) (world0 []))
       /\ found = [[("function", PStr "makeChunks");
                    ("detail",
                     PStr "Expected empty result when chunk size is non-positive");
                    ("payload",
                     PDict [("size", PInt 0); ("len", PInt 3);
                            ("result_len", PInt 2)])]].
Proof.
  split; [reflexivity|].
  destruct (C2_make_chunks_oracle head_chunk [1; 2; 3] 0 (mkState [] (world0 []))
              [[1]; [2; 3]] [1; 2; 3] (world0 []) eq_refl)
    as (found & E & _ & _ & Hf & _).
  exists found. split; [exact E|]. apply Hf; [lia|discriminate].
Defined.

Lemma C3_witness :
  let start_date := mkDatetime 2020 1 15 0 0 0 in
  let end_date := mkDatetime 2020 1 10 0 0 0 in
  signed_days (start_date, end_date) (world0 []) = (Ok (-5), world0 [])
  /\ (-5 < 0 ->
      check_days_between signed_days start_date end_date (mkState [] (world0 []))
      = (Ok tt,
         mkState
           [[("function", PStr "days_between");
             ("detail", PStr "Negative delta returned");
             ("payload",
              PDict [("start", PStr "2020-01-15T00:00:00");
                     ("end", PStr "2020-01-10T00:00:00");
                     ("result", PInt (-5))])]]
           (world0 []))).
Proof.
  split; [reflexivity|].
  apply (C3_days_between_oracle signed_days (mkDatetime 2020 1 15 0 0 0)
           (mkDatetime 2020 1 10 0 0 0) (mkState [] (world0 [])) (-5) (world0 [])).
  reflexivity.
Defined.

(** C4, as stated, fails: an aggregate that empties the list it is given
    and returns NaN is not flagged, although the generated payload is not
    empty. *)
Lemma C4_emptied_payload_not_flagged :
  clearing_nan [PInt 5] (world0 []) = (Ok (PFloat S754_nan), [], world0 [])
  /\ [PInt 5] <> []
  /\ check_average clearing_nan [PInt 5] (mkState [] (world0 []))
     = (Ok tt, mkState [] (world0 []))
  /\ check_median clearing_nan [PInt 5] (mkState [] (world0 []))
     = (Ok tt, mkState [] (world0 [])).
Proof. split; [reflexivity|]. split; [discriminate|]. split; reflexivity. Qed.

Lemma C4_witness :
  let payload := [PNone; PStr "noise"; PInt 5] in
  always_nan payload (world0 []) = (Ok (PFloat S754_nan), payload, world0 [])
  /\ (payload <> [] /\ PFloat S754_nan = PFloat S754_nan)
  /\ check_average always_nan payload (mkState [] (world0 []))
     = (Ok tt,
        mkState
          ([] ++ [[("function", PStr "Average");
                   ("detail", PStr "Average returned NaN for payload with data");
                   ("payload", PList payload)]])
          (world0 [])).
Proof.
  assert ([PNone; PStr "noise"; PInt 5] <> []
          /\ PFloat S754_nan = PFloat S754_nan) as H
    by (split; [discriminate|reflexivity]).
  split; [reflexivity|]. split; [exact H|].
  exact (proj1 (proj1 (C4_average_median_oracle always_nan always_nan
                         [PNone; PStr "noise"; PInt 5] (mkState [] (world0 []))
                         (PFloat S754_nan) [PNone; PStr "noise"; PInt 5]
                         (world0 []))
                  eq_refl) H).
Defined.




Lemma C9_witness :
  let w := world0 [3; 65; 66; 67; 5; 0; 9] in
  let after := snd (fuzz_dump_content tmp_name write_file 2 w) in
  w_fs w !! tmp_name (w_fs w) = None
  /\ w_fs after !! "/tmp/tmpfuzz" = None
  /\ forall p : string, in_tree "/tmp/tmpfuzz" p = true -> w_fs after !! p = None.
Proof.
  split; [reflexivity|].
  apply (C9_temp_dir_removed tmp_name write_file 2
           (world0 [3; 65; 66; 67; 5; 0; 9])).
  reflexivity.
Defined.


(** ** The scenarios of the specification *)

(** [[1,2,3,4,5]] in chunks of 2: the chunks put end to end are the input,
    nothing is recorded. *)
Example scenario_chunks_of_two :
  check_make_chunks (RS := replay)
    (fun data _ w => (Ok [[1; 2]; [3; 4]; [5]], data, w))
    [1; 2; 3; 4; 5] 2 (mkState [] (world0 []))
  = (Ok tt, mkState [] (world0 [])).
Proof. reflexivity. Qed.

(** [[7,8,9]] with size 0 and no chunk returned: nothing is recorded. *)
Example scenario_size_zero :
  check_make_chunks (RS := replay) (fun data _ w => (Ok [], data, w))
    [7; 8; 9] 0 (mkState [] (world0 []))
  = (Ok tt, mkState [] (world0 [])).
Proof. reflexivity. Qed.

(** [Median] raising on [[None, "noise", 5]]: one issue with the payload and
    the [repr] of the fault; the trial ends normally. *)
Example scenario_median_raises :
  check_median (RS := replay)
    (failing_on_list (mkExc "TypeError" "'unorderable types'" true true))
    [PNone; PStr "noise"; PInt 5] (mkState [] (world0 []))
  = (Ok tt,
     mkState
       [[("function", PStr "Median"); ("detail", PStr "Exception during median");
         ("payload", PList [PNone; PStr "noise"; PInt 5]);
         ("error", PStr "TypeError('unorderable types')")]]
       (world0 [])).
Proof. reflexivity. Qed.

(** A campaign whose target raises an [Exception] in every trial records one
    issue per trial and returns. *)
Example campaign_of_faults :
  option_map (@length dict)
    (match fst (fuzz_make_chunks (failing_chunker disk_full) 200 (world0 [])) with
     | Ok l => Some l
     | Exc _ => None
     end)
  = Some 200%nat.
Proof. vm_compute. reflexivity. Qed.

(** A fault whose object tests false is recorded without its [repr]. *)
Example falsy_fault_recorded_without_error :
  check_make_chunks (RS := replay) (failing_chunker quiet_error) [1; 2] 1
    (mkState [] (world0 []))
  = (Ok tt,
     mkState
       [[("function", PStr "makeChunks");
         ("detail", PStr "Exception during chunking");
         ("payload", PDict [("size", PInt 1); ("len", PInt 2)])]]
       (world0 [])).
Proof. reflexivity. Qed.

(** A target interrupted in the first trial of the content-dump campaign:
    the campaign ends with the interrupt and the directory is gone. *)
Example interrupted_dump_leaves_no_directory :
  let end_ := fuzz_dump_content tmp_name (failing KeyboardInterrupt) 2
                (world0 [0; 3]) in
  fst end_ = Exc KeyboardInterrupt /\ w_fs (snd end_) !! "/tmp/tmpfuzz" = None.
Proof. split; reflexivity. Qed.

(** * Further properties of the harness *)

(** ** The generators *)

Lemma all_from_spec (p : Z -> bool) count :
  forall n k, all_from n count p = true -> n <= k < n + Z.of_nat count -> p k = true.
Proof.
  induction count as [|c IH]; intros n k H Hk; simpl in H.
  - lia.
  - apply andb_prop in H as [H1 H2].
    destruct (Z.eq_dec k n) as [->|Hne]; [exact H1|].
    apply (IH (n + 1)); [exact H2|lia].
Qed.

Lemma ord_ok_checked : all_from 725468 (Z.to_nat 16973) ord_ok = true.
Proof. vm_compute. reflexivity. Qed.

(** At most 1000 days around the dates of the generator, an ordinal splits
    into a valid date that has this ordinal. *)
Lemma ord2ymd_roundtrip n :
  725468 <= n <= 742440 ->
  exists y m d,
    ord2ymd n = (y, m, d) /\ ymd2ord y m d = n /\ 1987 <= y <= 2033
    /\ 1 <= m <= 12 /\ 1 <= d <= days_in_month y m.
Proof.
  intros Hn.
  assert (ord_ok n = true) as H
    by (apply (all_from_spec _ _ _ _ ord_ok_checked); lia).
  unfold ord_ok in H. destruct (ord2ymd n) as [[y m] d].
  exists y, m, d. repeat (apply andb_prop in H as [H ?]). split; [reflexivity|].
  repeat split; lia.
Qed.

Lemma toordinal_start_range d :
  1990 <= year d <= 2030 -> 1 <= month d <= 12 -> 1 <= day d <= 28 ->
  726468 <= toordinal d <= 741440.
Proof.
  intros Hy Hm Hd. unfold toordinal, ymd2ord.
  pose proof (days_before_month_range (year d) _ Hm).
  assert (726467 <= days_before_year (year d) <= 741077) as Hdby.
  { unfold days_before_year.
    pose proof (Z.div_mod (year d - 1) 4 ltac:(lia)).
    pose proof (Z.mod_pos_bound (year d - 1) 4 ltac:(lia)).
    pose proof (Z.div_mod (year d - 1) 100 ltac:(lia)).
    pose proof (Z.mod_pos_bound (year d - 1) 100 ltac:(lia)).
    pose proof (Z.div_mod (year d - 1) 400 ltac:(lia)).
    pose proof (Z.mod_pos_bound (year d - 1) 400 ltac:(lia)).
    lia. }
  lia.
Qed.

Section GeneratorDomains.

Context {RS : RandomSource}.

(** X1. The chunk-input generator never raises and leaves the filesystem
    alone; it yields at most 40 integers, each in [-1000, 1000], and a size
    that is 0, -1 or between 1 and [max(1, len(data))]. *)
Theorem X1_chunk_input_domain (w : world) :
  exists (data : list Z) (size : Z) (g : rng),
    gen_make_chunks w = (Ok (data, size), mkWorld g (w_fs w))
    /\ 0 <= len data <= 40
    /\ Forall (fun v => -1000 <= v <= 1000) data
    /\ (size = 0 \/ size = -1 \/ 1 <= size <= Z.max 1 (len data)).
Proof.
  destruct (draws_gen_make_chunks w) as ([data size] & g & E & Hl & Hd & Hs).
  exists data, size, g. simpl in *. split; [exact E|].
  split; [unfold len in *; lia|]. split; assumption.
Qed.

Lemma gen_days_between_draws :
  draws gen_days_between
    (fun x => (1990 <= year (fst x) <= 2030 /\ 1 <= month (fst x) <= 12
               /\ 1 <= day (fst x) <= 28 /\ 0 <= hour (fst x) <= 23
               /\ 0 <= minute (fst x) <= 59 /\ second (fst x) = 0)
              /\ exists delta_days, -1000 <= delta_days <= 1000
                   /\ (year (snd x), month (snd x), day (snd x))
                      = ord2ymd (toordinal (fst x) + delta_days)
                   /\ hour (snd x) = hour (fst x)
                   /\ minute (snd x) = minute (fst x)
                   /\ second (snd x) = second (fst x)).
Proof.
  unfold gen_days_between.
  eapply draws_bind; [apply (draws_randint 1990 2030); lia|]. intros y Hy.
  eapply draws_bind; [apply (draws_randint 1 12); lia|]. intros m Hm.
  eapply draws_bind; [apply (draws_randint 1 28); lia|]. intros d Hd.
  eapply draws_bind; [apply (draws_randint 0 23); lia|]. intros h Hh.
  eapply draws_bind; [apply (draws_randint 0 59); lia|]. intros mi Hmi.
  cbv beta in *.
  eapply draws_bind; [apply draws_new_datetime; assumption|].
  intros start_date ->.
  eapply draws_bind; [apply (draws_randint (-1000) 1000); lia|].
  intros delta Hdelta. cbv beta in Hdelta.
  eapply draws_bind; [apply draws_add_days; simpl; assumption|].
  intros end_date (Hymd & Hh' & Hm' & Hs'). apply draws_ret. simpl.
  split; [repeat (split; [assumption|]); reflexivity|].
  exists delta. auto.
Qed.

(** X2. The date-pair generator never raises: the start has its year in
    [1990, 2030], its day in [1, 28] and no seconds; the end is a valid
    date of the years 1987 to 2033, exactly [delta_days] days from the
    start for some [delta_days] in [-1000, 1000], at the same time of
    day. *)
Theorem X2_date_pair_domain (w : world) :
  exists (start_date end_date : datetime) (delta_days : Z) (g : rng),
    gen_days_between w = (Ok (start_date, end_date), mkWorld g (w_fs w))
    /\ 1990 <= year start_date <= 2030 /\ 1 <= month start_date <= 12
    /\ 1 <= day start_date <= 28 /\ 0 <= hour start_date <= 23
    /\ 0 <= minute start_date <= 59 /\ second start_date = 0
    /\ -1000 <= delta_days <= 1000
    /\ toordinal end_date = toordinal start_date + delta_days
    /\ 1987 <= year end_date <= 2033 /\ 1 <= month end_date <= 12
    /\ 1 <= day end_date <= days_in_month (year end_date) (month end_date)
    /\ hour end_date = hour start_date /\ minute end_date = minute start_date
    /\ second end_date = 0.
Proof.
  destruct (gen_days_between_draws w)
    as ([s e] & g & E & (Hy & Hm & Hd & Hh & Hmi & Hs) & delta & Hdelta & Hymd & H1 & H2 & H3).
  simpl in *. exists s, e, delta, g. split; [exact E|].
  pose proof (toordinal_start_range s Hy Hm Hd) as Hord.
  destruct (ord2ymd_roundtrip (toordinal s + delta) ltac:(lia))
    as (y & m & d & Eo & Hback & Hy' & Hm' & Hd').
  rewrite Eo in Hymd. injection Hymd as Ey Em Ed.
  unfold toordinal at 1. rewrite Ey, Em, Ed.
  repeat (split; [assumption || lia|]). congruence.
Qed.

Lemma prefix_append s t : String.prefix s (s +:+ t) = true.
Proof.
  induction s as [|a s IH]; [now destruct t|].
  simpl. destruct (ascii_dec a a); [exact IH|congruence].
Qed.

Lemma dump_path_in_tree temp_dir k : in_tree temp_dir (dump_path temp_dir k) = true.
Proof.
  unfold in_tree, dump_path, path_join. apply orb_true_iff. right.
  change (temp_dir +:+ "/" +:+ ?r) with (temp_dir +:+ String "/" r).
  induction temp_dir as [|a s IH]; simpl.
  - reflexivity.
  - destruct (ascii_dec a a); [exact IH|congruence].
Qed.

(** X3. The text-payload generator never raises: the content has at most
    2048 characters, all printable ASCII, the file number lies in
    [0, 999999], and the path built from it lies below the temporary
    directory. *)
Theorem X3_text_payload_domain (temp_dir : string) (w : world) :
  exists (content : string) (k : Z) (g : rng),
    gen_dump_content w = (Ok (content, k), mkWorld g (w_fs w))
    /\ (String.length content <= 2048)%nat
    /\ Forall printable (list_ascii_of_string content)
    /\ 0 <= k <= 999999
    /\ in_tree temp_dir (dump_path temp_dir k) = true
    /\ dump_path temp_dir k <> temp_dir.
Proof.
  destruct (draws_gen_dump_content w) as ([content k] & g & E & Hl & Hp & Hk).
  exists content, k, g. simpl in *. repeat (split; [assumption|]).
  split; [apply dump_path_in_tree|].
  intros H. apply (f_equal String.length) in H.
  unfold dump_path, path_join in H. rewrite append_length in H. simpl in H. lia.
Qed.

End GeneratorDomains.

(** ** The content-dump oracle *)

Section DumpOracle.

Context {RS : RandomSource}.

Variable dumpContentIntoFile : target (string * string) Z.

(** X4. When the writer returns a size and the file exists, the trial ends
    normally; it records nothing if the reported size is the size on disk,
    and otherwise exactly one issue "Reported size mismatch" with both
    sizes and the path. *)
Theorem X4_dump_size_oracle (content file_path : string) (s : hstate)
    (reported : Z) (w : world) (i : inode) :
  dumpContentIntoFile (content, file_path) (env s) = (Ok reported, w) ->
  w_fs w !! file_path = Some i ->
  (reported = st_size i ->
   check_dump_content dumpContentIntoFile content file_path s
   = (Ok tt, mkState (issues s) w))
  /\ (reported <> st_size i ->
      check_dump_content dumpContentIntoFile content file_path s
      = (Ok tt,
         mkState
           (issues s
            ++ [[("function", PStr "dumpContentIntoFile");
                 ("detail", PStr "Reported size mismatch");
                 ("payload",
                  PDict [("reported", PInt reported);
                         ("actual", PInt (st_size i));
                         ("path", PStr file_path)])]])
           w)).
Proof.
  intros Hcall Hfile. unfold check_dump_content.
  rewrite try_call, Hcall, try_call. unfold stat_size. simpl. rewrite Hfile.
  unfold try_except. split; intros H.
  - destruct (Z.eqb_spec reported (st_size i)); [reflexivity|contradiction].
  - destruct (Z.eqb_spec reported (st_size i)); [contradiction|].
    simpl. now rewrite record_issue_app.
Qed.

(** X5. When the writer returns but no file exists at the path, the
    [stat] of the harness raises inside the [try]: the trial ends normally
    with exactly one issue "Exception during write" that carries the path,
    the length of the content and the [repr] of the [FileNotFoundError]; no
    size is compared. *)
Theorem X5_dump_missing_file (content file_path : string) (s : hstate)
    (reported : Z) (w : world) :
  dumpContentIntoFile (content, file_path) (env s) = (Ok reported, w) ->
  w_fs w !! file_path = None ->
  check_dump_content dumpContentIntoFile content file_path s
  = (Ok tt,
     mkState
       (issues s
        ++ [[("function", PStr "dumpContentIntoFile");
             ("detail", PStr "Exception during write");
             ("payload",
              PDict [("path", PStr file_path);
                     ("len", PInt (Z.of_nat (String.length content)))]);
             ("error",
              PStr "FileNotFoundError(2, 'No such file or directory')")]])
       w).
Proof.
  intros Hcall Hfile. unfold check_dump_content.
  rewrite try_call, Hcall, try_call. unfold stat_size. simpl. rewrite Hfile.
  reflexivity.
Qed.

End DumpOracle.

(** ** Loops *)

Section LoopFacts.

Context {S : Type}.

(** A loop whose rounds return and keep [I] returns and keeps [I]. *)
Lemma for_range_ok (I : S -> Prop) (body : M S unit) n :
  (forall s, I s -> exists s', body s = (Ok tt, s') /\ I s') ->
  forall s, I s -> exists s', for_range n body s = (Ok tt, s') /\ I s'.
Proof.
  intros Hb. induction n as [|n IH]; intros s Hs; simpl.
  - exists s. now split.
  - unfold bind. destruct (Hb s Hs) as (s1 & E & H1). rewrite E. now apply IH.
Qed.

(** [n + m] rounds are [n] rounds followed by [m] rounds. *)
Lemma for_range_add (body : M S unit) n m s :
  for_range (n + m) body s
  = bind (for_range n body) (fun _ => for_range m body) s.
Proof.
  revert s. induction n as [|n IH]; intros s; simpl; [reflexivity|].
  unfold bind. destruct (body s) as [[[]|e] s1]; [|reflexivity].
  rewrite IH. reflexivity.
Qed.

End LoopFacts.


Lemma rmtree_lookup_outside d fs p :
  in_tree d p = false -> rmtree d fs !! p = fs !! p.
Proof.
  intros Hp. unfold rmtree. destruct (fs !! p) as [i|] eqn:E.
  - apply map_lookup_filter_Some. split; [exact E|exact Hp].
  - apply map_lookup_filter_None. now left.
Qed.

(** ** Campaigns *)

Section Campaigns.

Context {RS : RandomSource}.

Variable mkdtemp_name : gmap string inode -> string.
Variable makeChunks : list Z -> Z -> mutator (list Z) (list (list Z)).
Variable days_between : target (datetime * datetime) Z.
Variable dumpContentIntoFile : target (string * string) Z.
Variable Average : list pyval -> mutator (list pyval) pyval.
Variable Median : list pyval -> mutator (list pyval) pyval.

(** A frame around a loop that returns with no issue returns the empty
    list. *)
Lemma frame_quiet (trial : M hstate unit) n (w : world) :
  (forall s, issues s = [] ->
             exists s', trial s = (Ok tt, s') /\ issues s' = []) ->
  exists w', frame (for_range n trial) w = (Ok [], w').
Proof.
  intros Ht.
  destruct (for_range_ok (fun s => issues s = []) trial n Ht (mkState [] w) eq_refl)
    as (s' & E & Hs').
  exists (env s'). unfold frame. rewrite E. now rewrite Hs'.
Qed.

(** X6. With a chunker that leaves the list it is given as it is and
    returns no chunk for a non-positive size and chunks that put end to end
    are the input for a positive size, the chunking campaign returns the
    empty list, whatever the number of iterations and the state of the
    random source. *)
Theorem X6_faithful_chunker_no_issue (iterations : Z) (w : world) :
  (forall data size w0,
      exists chunks w1,
        makeChunks data size w0 = (Ok chunks, data, w1)
        /\ (size <= 0 -> chunks = []) /\ (0 < size -> concat chunks = data)) ->
  exists w', fuzz_make_chunks makeChunks iterations w = (Ok [], w').
Proof.
  intros Hgood. apply frame_quiet. intros s Hs.
  unfold trial_make_chunks, bind.
  destruct (call_draws _ _ s draws_gen_make_chunks) as ([data size] & g & E & _).
  rewrite E. simpl. unfold check_make_chunks. simpl.
  destruct (Hgood data size (mkWorld g (w_fs (env s))))
    as (chunks & w1 & Ec & Hneg & Hpos).
  rewrite Ec, try_ended. unfold try_except, bind.
  destruct (Z.leb_spec size 0); destruct (Z.ltb_spec 0 size); try lia; simpl.
  - rewrite (bool_decide_eq_true_2 _ (Hneg ltac:(lia))). simpl. eauto.
  - rewrite (bool_decide_eq_true_2 _ (Hpos ltac:(lia))). simpl. eauto.
Qed.

(** X7. With a [days_between] that returns non-negative numbers, the
    date-difference campaign returns the empty list. *)
Theorem X7_nonnegative_days_no_issue (iterations : Z) (w : world) :
  (forall start_date end_date w0,
      exists result w1,
        days_between (start_date, end_date) w0 = (Ok result, w1)
        /\ 0 <= result) ->
  exists w', fuzz_days_between days_between iterations w = (Ok [], w').
Proof.
  intros Hgood. apply frame_quiet. intros s Hs.
  unfold trial_days_between, bind.
  destruct (call_draws _ _ s draws_gen_days_between) as ([d1 d2] & g & E & _).
  rewrite E. simpl. unfold check_days_between. rewrite try_call. simpl.
  destruct (Hgood d1 d2 (mkWorld g (w_fs (env s)))) as (r & w1 & Ec & Hr).
  rewrite Ec. unfold try_except, bind.
  destruct (Z.ltb_spec r 0); [lia|]. simpl. eauto.
Qed.

(** X8. With a writer that stores a file of the size it reports at the
    path it is given and touches no other path, and a fresh temporary
    directory, the content-dump campaign returns the empty list and leaves
    the filesystem exactly as it found it. *)
Theorem X8_honest_writer_leaves_no_trace (iterations : Z) (w : world) :
  (forall content path w0,
      exists n w1,
        dumpContentIntoFile (content, path) w0 = (Ok n, w1)
        /\ (exists i, w_fs w1 !! path = Some i /\ st_size i = n)
        /\ (forall p, p <> path -> w_fs w1 !! p = w_fs w0 !! p)) ->
  (forall p, in_tree (mkdtemp_name (w_fs w)) p = true -> w_fs w !! p = None) ->
  exists g : rng,
    fuzz_dump_content mkdtemp_name dumpContentIntoFile iterations w
    = (Ok [], mkWorld g (w_fs w)).
Proof.
  intros Hgood Hfree. set (d := mkdtemp_name (w_fs w)).
  unfold fuzz_dump_content, frame, TemporaryDirectory, bind, call, mkdtemp.
  simpl. fold d. rewrite (Hfree d (in_tree_self d)).
  set (I := fun s : hstate =>
              issues s = []
              /\ forall p, in_tree d p = false -> w_fs (env s) !! p = w_fs w !! p).
  assert (forall s, I s ->
            exists s', trial_dump_content dumpContentIntoFile d s = (Ok tt, s')
                       /\ I s') as Htrial.
  { intros s [Hi Hfs]. unfold trial_dump_content, bind.
    destruct (call_draws _ _ s draws_gen_dump_content) as ([content k] & g & E & _).
    rewrite E. simpl. unfold check_dump_content. rewrite try_call. simpl.
    destruct (Hgood content (dump_path d k) (mkWorld g (w_fs (env s))))
      as (n & w1 & Ec & (i & Ei & Hsize) & Hother).
    rewrite Ec, try_call. unfold stat_size. simpl. rewrite Ei.
    unfold try_except. rewrite Hsize, Z.eqb_refl. simpl.
    eexists. split; [reflexivity|]. split; [exact Hi|]. simpl.
    intros p Hp. rewrite Hother; [simpl; now apply Hfs|].
    intros ->. rewrite dump_path_in_tree in Hp. discriminate. }
  unfold try_finally, cleanup.
  match goal with
  | |- context [for_range ?n ?b ?s0] =>
      assert (I s0) as H0;
      [|destruct (for_range_ok I b n Htrial s0 H0) as (s' & E & Hs' & Hfs)]
  end.
  { split; [reflexivity|]. simpl. intros p Hp. apply lookup_insert_ne.
    intros <-. rewrite in_tree_self in Hp. discriminate. }
  rewrite E. simpl. rewrite Hs'.
  exists (w_rng (env s')). do 2 f_equal. apply map_eq. intros p.
  destruct (in_tree d p) eqn:Hp.
  - rewrite rmtree_lookup by exact Hp. symmetry. now apply Hfree.
  - rewrite rmtree_lookup_outside by exact Hp. now apply Hfs.
Qed.



End Campaigns.

(** ** Sizes, order and origin of the issues *)

Section Issues.

Context {RS : RandomSource}.

Variable mkdtemp_name : gmap string inode -> string.
Variable makeChunks : list Z -> Z -> mutator (list Z) (list (list Z)).
Variable days_between : target (datetime * datetime) Z.
Variable dumpContentIntoFile : target (string * string) Z.
Variable Average : list pyval -> mutator (list pyval) pyval.
Variable Median : list pyval -> mutator (list pyval) pyval.

Lemma campaign_sizes (iterations : Z) :
  returns_only (fun l => (length l <= range iterations)%nat)
    (fuzz_make_chunks makeChunks iterations)
  /\ returns_only (fun l => (length l <= range iterations)%nat)
       (fuzz_days_between days_between iterations)
  /\ returns_only (fun l => (length l <= range iterations)%nat)
       (fuzz_dump_content mkdtemp_name dumpContentIntoFile iterations)
  /\ returns_only (fun l => (length l <= range iterations)%nat)
       (fuzz_average Average iterations)
  /\ returns_only (fun l => (length l <= range iterations)%nat)
       (fuzz_median Median iterations).
Proof.
  assert (forall c : M world (list dict),
             returns_only
               (fun l => (length l <= range iterations)%nat
                         /\ Forall issue_shape l) c ->
             returns_only (fun l => (length l <= range iterations)%nat) c) as Hw.
  { intros c Hc w l w' H. now destruct (Hc w l w' H). }
  repeat split; apply Hw.
  - apply fuzz_loop_returns, appends_trial_make_chunks.
  - apply fuzz_loop_returns, appends_trial_days_between.
  - apply fuzz_dump_content_returns.
  - apply fuzz_loop_returns, appends_trial_average.
  - apply fuzz_loop_returns, appends_trial_median.
Qed.

(** X10. A campaign that returns has at most one issue per iteration;
    with the default counts that is at most 200, and 50 for the content
    dump. *)
Theorem X10_campaign_size_bound (iterations : Z) :
  returns_only (fun l => (length l <= range iterations)%nat)
    (fuzz_make_chunks makeChunks iterations)
  /\ returns_only (fun l => (length l <= range iterations)%nat)
       (fuzz_days_between days_between iterations)
  /\ returns_only (fun l => (length l <= range iterations)%nat)
       (fuzz_dump_content mkdtemp_name dumpContentIntoFile iterations)
  /\ returns_only (fun l => (length l <= range iterations)%nat)
       (fuzz_average Average iterations)
  /\ returns_only (fun l => (length l <= range iterations)%nat)
       (fuzz_median Median iterations).
Proof. exact (campaign_sizes iterations). Qed.

(** X11. With a number of iterations that is zero or negative no trial
    runs: the four campaigns without resources return the empty list in
    the world they started in, with no call of the target and no draw; the
    content-dump campaign returns the empty list once its directory is
    created, and the directory is gone. *)
Theorem X11_no_iterations (iterations : Z) (w : world) :
  iterations <= 0 ->
  fuzz_make_chunks makeChunks iterations w = (Ok [], w)
  /\ fuzz_days_between days_between iterations w = (Ok [], w)
  /\ fuzz_average Average iterations w = (Ok [], w)
  /\ fuzz_median Median iterations w = (Ok [], w)
  /\ (w_fs w !! mkdtemp_name (w_fs w) = None ->
      fuzz_dump_content mkdtemp_name dumpContentIntoFile iterations w
      = (Ok [],
         mkWorld (w_rng w)
           (rmtree (mkdtemp_name (w_fs w))
              (<[mkdtemp_name (w_fs w) := mkInode true 4096]> (w_fs w))))).
Proof.
  intros Hn.
  unfold fuzz_make_chunks, fuzz_days_between, fuzz_average, fuzz_median,
    fuzz_dump_content, range.
  replace (Z.to_nat iterations) with 0%nat by lia.
  repeat (split; [reflexivity|]).
  intros Hfree. unfold frame, TemporaryDirectory, bind, call, mkdtemp. simpl.
  rewrite Hfree. reflexivity.
Qed.

Local Ltac from_oracle :=
  split; [reflexivity|];
  left; eexists; split; [|split; reflexivity]; simpl; tauto.

Local Ltac from_handler e :=
  try unfold issue_of;
  destruct (exc_truthy e);
  (split; [reflexivity|]; right; split; [reflexivity|]);
  [right; exists e; reflexivity|left; reflexivity].

Local Ltac none_found :=
  exists []; simpl; rewrite app_nil_r; repeat split; [lia|constructor].

Local Ltac one_found tac :=
  simpl; rewrite ?record_issue_app; eexists [_];
  split; [reflexivity|]; split; [simpl; lia|];
  constructor; [tac|constructor].

Local Ltac raised e :=
  destruct (exc_Exception e);
  [one_found ltac:(from_handler e)|none_found].

Lemma origin_check_make_chunks data size :
  appends
    (issue_from "makeChunks"
       ["Expected empty result when chunk size is non-positive";
        "Chunk reconstruction mismatch"]
       "Exception during chunking")
    (check_make_chunks makeChunks data size).
Proof.
  intros s. unfold check_make_chunks.
  destruct (makeChunks data size (env s)) as [[[chunks|e] left_] w];
    rewrite try_ended; [|raised e].
  unfold try_except, bind.
  destruct (Z.leb_spec size 0); destruct (Z.ltb_spec 0 size); try lia; simpl.
  - destruct (bool_decide (chunks = [])); [none_found|one_found from_oracle].
  - destruct (bool_decide (concat chunks = left_));
      [none_found|one_found from_oracle].
Qed.

Lemma origin_check_days_between start_date end_date :
  appends
    (issue_from "days_between" ["Negative delta returned"]
       "Exception during computation")
    (check_days_between days_between start_date end_date).
Proof.
  intros s. unfold check_days_between. rewrite try_call.
  destruct (days_between (start_date, end_date) (env s)) as [[r|e] w];
    [|raised e].
  unfold try_except, bind.
  destruct (r <? 0); [one_found from_oracle|none_found].
Qed.

Lemma origin_check_dump_content content file_path :
  appends
    (issue_from "dumpContentIntoFile" ["Reported size mismatch"]
       "Exception during write")
    (check_dump_content dumpContentIntoFile content file_path).
Proof.
  intros s. unfold check_dump_content. rewrite try_call.
  destruct (dumpContentIntoFile (content, file_path) (env s)) as [[n|e] w];
    [|raised e].
  rewrite try_call. unfold stat_size. simpl.
  destruct (w_fs w !! file_path) as [i|].
  - unfold try_except.
    destruct (n =? st_size i); [none_found|one_found from_oracle].
  - one_found
      ltac:(split; [reflexivity|]; right; split; [reflexivity|]; right;
            exists (FileNotFoundError "2, 'No such file or directory'");
            reflexivity).
Qed.

Lemma origin_check_average payload :
  appends
    (issue_from "Average" ["Average returned NaN for payload with data"]
       "Exception during average")
    (check_average Average payload).
Proof.
  intros s. unfold check_average.
  destruct (Average payload (env s)) as [[[r|e] left_] w];
    rewrite try_ended; [|raised e].
  unfold try_except, bind.
  destruct (is_float_nan r && truthy left_);
    [one_found from_oracle|none_found].
Qed.

Lemma origin_check_median payload :
  appends
    (issue_from "Median" ["Median returned NaN for payload with data"]
       "Exception during median")
    (check_median Median payload).
Proof.
  intros s. unfold check_median.
  destruct (Median payload (env s)) as [[[r|e] left_] w];
    rewrite try_ended; [|raised e].
  unfold try_except, bind.
  destruct (is_float_nan r && truthy left_);
    [one_found from_oracle|none_found].
Qed.

Lemma origin_campaign (Q : dict -> Prop) {A} (gen : M world A)
    (check : A -> M hstate unit) iterations :
  (forall a, appends Q (check a)) ->
  returns_only (Forall Q)
    (frame (for_range (range iterations) (bind (call gen) check))).
Proof.
  intros Hc w l w' H.
  eapply (fuzz_loop_returns Q _ iterations); [|exact H].
  now apply appends_call_bind.
Qed.

(** X12. Every issue of a campaign names the target of that campaign.  It
    either has one of the details of the campaign's oracle and no
    ["error"], or has the campaign's fault detail and, as ["error"],
    nothing or the [repr] of a raised object. *)
Theorem X12_issue_origin (iterations : Z) :
  returns_only
    (Forall (issue_from "makeChunks"
               ["Expected empty result when chunk size is non-positive";
                "Chunk reconstruction mismatch"]
               "Exception during chunking"))
    (fuzz_make_chunks makeChunks iterations)
  /\ returns_only
       (Forall (issue_from "days_between" ["Negative delta returned"]
                  "Exception during computation"))
       (fuzz_days_between days_between iterations)
  /\ returns_only
       (Forall (issue_from "dumpContentIntoFile" ["Reported size mismatch"]
                  "Exception during write"))
       (fuzz_dump_content mkdtemp_name dumpContentIntoFile iterations)
  /\ returns_only
       (Forall (issue_from "Average"
                  ["Average returned NaN for payload with data"]
                  "Exception during average"))
       (fuzz_average Average iterations)
  /\ returns_only
       (Forall (issue_from "Median"
                  ["Median returned NaN for payload with data"]
                  "Exception during median"))
       (fuzz_median Median iterations).
Proof.
  split; [apply origin_campaign; intros a; apply origin_check_make_chunks|].
  split; [apply origin_campaign; intros a; apply origin_check_days_between|].
  split; [|split; apply origin_campaign; intros a;
           [apply origin_check_average|apply origin_check_median]].
  intros w l w' H.
  eapply (frame_grows _ (range iterations)); [|exact H].
  apply grows_TemporaryDirectory. intros d.
  apply grows_for_range, appends_call_bind. intros a.
  apply origin_check_dump_content.
Qed.


Lemma loop_prefix (Q : dict -> Prop) (body : M hstate unit) n m s :
  appends Q body ->
  issues (snd (for_range n body s))
    `prefix_of` issues (snd (for_range (n + m) body s)).
Proof.
  intros Hb. rewrite for_range_add. unfold bind.
  destruct (for_range n body s) as [[[]|e] s1]; simpl; [|reflexivity].
  destruct (grows_for_range Q body m Hb s1) as (found & E & _).
  rewrite E. now exists found.
Qed.

(** X14. The issues of a campaign are in the order of discovery: in each
    campaign, from any state, the list after [n] trials is a prefix of the
    list after [n + m] trials. *)
Theorem X14_issues_in_discovery_order (n m : nat) (s : hstate) :
  issues (snd (for_range n (trial_make_chunks makeChunks) s))
    `prefix_of` issues (snd (for_range (n + m) (trial_make_chunks makeChunks) s))
  /\ issues (snd (for_range n (trial_days_between days_between) s))
       `prefix_of`
       issues (snd (for_range (n + m) (trial_days_between days_between) s))
  /\ (forall temp_dir,
         issues (snd (for_range n
                        (trial_dump_content dumpContentIntoFile temp_dir) s))
           `prefix_of`
           issues (snd (for_range (n + m)
                          (trial_dump_content dumpContentIntoFile temp_dir) s)))
  /\ issues (snd (for_range n (trial_average Average) s))
       `prefix_of` issues (snd (for_range (n + m) (trial_average Average) s))
  /\ issues (snd (for_range n (trial_median Median) s))
       `prefix_of` issues (snd (for_range (n + m) (trial_median Median) s)).
Proof.
  split; [eapply loop_prefix, appends_trial_make_chunks|].
  split; [eapply loop_prefix, appends_trial_days_between|].
  split; [intros d; eapply loop_prefix, appends_trial_dump_content|].
  split; [eapply loop_prefix, appends_trial_average
         |eapply loop_prefix, appends_trial_median].
Qed.

End Issues.

(** ** The ISO format *)

Lemma fields_of_two_checked : all_from 0 (Z.to_nat 100) (field_ok 2) = true.
Proof. vm_compute. reflexivity. Qed.

Lemma fields_of_four_checked : all_from 0 (Z.to_nat 10000) (field_ok 4) = true.
Proof. vm_compute. reflexivity. Qed.

Lemma field_ok_spec w n :
  field_ok w n = true ->
  String.length (zfill w (str_of_int n)) = w
  /\ int_of_str (zfill w (str_of_int n)) = Some n.
Proof.
  unfold field_ok. intros H. apply andb_prop in H as [H1 H2].
  apply Nat.eqb_eq in H1. split; [exact H1|].
  destruct (int_of_str (zfill w (str_of_int n))) as [k|]; [|discriminate].
  apply Z.eqb_eq in H2. now subst.
Qed.

Lemma field2 n : 0 <= n <= 99 -> field_ok 2 n = true.
Proof.
  intros H. apply (all_from_spec _ _ _ _ fields_of_two_checked). lia.
Qed.

Lemma field4 n : 0 <= n <= 9999 -> field_ok 4 n = true.
Proof.
  intros H. apply (all_from_spec _ _ _ _ fields_of_four_checked). lia.
Qed.

(** Two fields of the same width that are equal hold the same number. *)
Lemma field_inj w n1 n2 :
  field_ok w n1 = true -> field_ok w n2 = true ->
  zfill w (str_of_int n1) = zfill w (str_of_int n2) -> n1 = n2.
Proof.
  intros H1 H2 E. apply field_ok_spec in H1 as [_ D1], H2 as [_ D2].
  rewrite E in D1. congruence.
Qed.

Lemma append_split s1 s2 t1 t2 :
  String.length s1 = String.length s2 ->
  s1 +:+ t1 = s2 +:+ t2 -> s1 = s2 /\ t1 = t2.
Proof.
  revert s2. induction s1 as [|a s1 IH]; intros [|b s2] Hl H;
    simpl in Hl; try discriminate.
  - now split.
  - simpl in H. injection H as -> H. injection Hl as Hl.
    destruct (IH s2 Hl H) as [-> ->]. now split.
Qed.

(** X15. The ISO string identifies the timestamp: two datetimes whose
    fields fit the widths of the format (a year of at most four digits,
    the other fields of at most two) and whose ISO strings are equal are
    equal.  So the payload of a [days_between] issue determines the pair
    of timestamps of its trial. *)
Theorem X15_isoformat_identifies (d1 d2 : datetime) :
  fits_iso d1 -> fits_iso d2 -> isoformat d1 = isoformat d2 -> d1 = d2.
Proof.
  intros (Y1 & M1 & D1 & H1 & Mi1 & S1) (Y2 & M2 & D2 & H2 & Mi2 & S2) E.
  unfold isoformat in E.
  pose proof (field4 _ Y1) as FY1. pose proof (field4 _ Y2) as FY2.
  pose proof (field2 _ M1) as FM1. pose proof (field2 _ M2) as FM2.
  pose proof (field2 _ D1) as FD1. pose proof (field2 _ D2) as FD2.
  pose proof (field2 _ H1) as FH1. pose proof (field2 _ H2) as FH2.
  pose proof (field2 _ Mi1) as FMi1. pose proof (field2 _ Mi2) as FMi2.
  pose proof (field2 _ S1) as FS1. pose proof (field2 _ S2) as FS2.
  assert (forall w a b, field_ok w a = true -> field_ok w b = true ->
            String.length (zfill w (str_of_int a))
            = String.length (zfill w (str_of_int b))) as Hlen.
  { intros w a b Ha Hb.
    apply field_ok_spec in Ha as [-> _], Hb as [-> _]. reflexivity. }
  apply append_split in E as [EY E]; [|now apply Hlen].
  apply (append_inj_l "-") in E.
  apply append_split in E as [EM E]; [|now apply Hlen].
  apply (append_inj_l "-") in E.
  apply append_split in E as [ED E]; [|now apply Hlen].
  apply (append_inj_l "T") in E.
  apply append_split in E as [EH E]; [|now apply Hlen].
  apply (append_inj_l ":") in E.
  apply append_split in E as [EMi E]; [|now apply Hlen].
  apply (append_inj_l ":") in E. rename E into ES.
  apply field_inj in EY, EM, ED, EH, EMi, ES; try assumption.
  destruct d1, d2. simpl in *. congruence.
Qed.

(** ** Floats of the numeric-noise generator *)

Lemma shr_1_nonneg mrs : 0 <= shr_m mrs -> 0 <= shr_m (shr_1 mrs).
Proof. destruct mrs as [[|[p|p|]|p] r s]; simpl; lia. Qed.

Lemma iter_pos_nonneg p : forall mrs,
  0 <= shr_m mrs -> 0 <= shr_m (SpecFloat.iter_pos shr_1 p mrs).
Proof.
  induction p as [p IH|p IH|]; intros mrs H; simpl.
  - apply IH, IH, shr_1_nonneg, H.
  - apply IH, IH, H.
  - apply shr_1_nonneg, H.
Qed.

Lemma shr_fexp_nonneg m e l :
  0 <= m -> 0 <= shr_m (fst (shr_fexp float_prec float_emax m e l)).
Proof.
  intros H. unfold shr_fexp, shr.
  assert (0 <= shr_m (shr_record_of_loc m l)) as H0
    by (destruct l as [|[]]; exact H).
  destruct (_ - e) as [|p|p]; simpl; auto using iter_pos_nonneg.
Qed.

Lemma round_nearest_even_nonneg m l : 0 <= m -> 0 <= round_nearest_even m l.
Proof.
  intros H. unfold round_nearest_even.
  destruct l as [|[]]; try destruct (Z.even m); lia.
Qed.

(** Rounding a non-negative mantissa never gives NaN. *)
Lemma binary_round_aux_not_nan sx m e l :
  0 <= m -> binary_round_aux float_prec float_emax sx m e l <> S754_nan.
Proof.
  intros H. unfold binary_round_aux.
  pose proof (shr_fexp_nonneg m e l H) as H1.
  destruct (shr_fexp float_prec float_emax m e l) as [mrs1 e1]. simpl in H1.
  pose proof (shr_fexp_nonneg _ e1 loc_Exact
                (round_nearest_even_nonneg _ (loc_of_shr_record mrs1) H1)) as H2.
  destruct (shr_fexp float_prec float_emax _ e1 loc_Exact) as [mrs2 e2].
  simpl in H2. destruct (shr_m mrs2) as [|p|p]; [discriminate| |lia].
  destruct (e2 <=? _); discriminate.
Qed.

Lemma digits2_pos_size p : digits2_pos p = Pos.size p.
Proof. induction p as [p IH|p IH|]; simpl; congruence. Qed.

Lemma digits2_pos_bound p : Z.pos p < 2 ^ 53 -> Z.pos (digits2_pos p) <= 53.
Proof.
  intros Hp. rewrite digits2_pos_size.
  destruct (Z_le_gt_dec (Z.pos (Pos.size p)) 53) as [H|H]; [exact H|exfalso].
  pose proof (Pos.size_le p) as Hs. apply Pos2Z.pos_le_pos in Hs.
  rewrite Pos2Z.inj_pow in Hs.
  assert (2 ^ 54 <= 2 ^ Z.pos (Pos.size p)) by (apply Z.pow_le_mono_r; lia).
  change (Z.pos p~0) with (2 * Z.pos p) in Hs. lia.
Qed.

Lemma digits2_pos_shift p d :
  digits2_pos (Pos.iter xO p d) = (digits2_pos p + d)%positive.
Proof.
  induction d as [|d IH] using Pos.peano_ind.
  - simpl. lia.
  - rewrite Pos.iter_succ. simpl. rewrite IH. lia.
Qed.

(** A mantissa of 53 bits with an exponent in range is its own rounding. *)
Lemma binary_round_aux_exact sx m e :
  Z.pos (digits2_pos m) = 53 -> -1074 <= e <= 971 ->
  binary_round_aux float_prec float_emax sx (Z.pos m) e loc_Exact
  = S754_finite sx m e.
Proof.
  intros Hd He.
  assert (forall l, shr_fexp float_prec float_emax (Z.pos m) e l
                    = (shr_record_of_loc (Z.pos m) l, e)) as Hshr.
  { intros l. unfold shr_fexp, fexp, emin, float_prec, float_emax.
    simpl Zdigits2. rewrite Hd.
    replace (Z.max (53 + e - 53) (3 - 1024 - 53) - e) with 0 by lia.
    reflexivity. }
  unfold binary_round_aux. rewrite Hshr. simpl. rewrite Hshr. simpl.
  unfold float_prec, float_emax.
  destruct (Z.leb_spec e (1024 - 53)); [reflexivity|lia].
Qed.

(** [random()] is zero or a finite float. *)
Lemma random_float_finite n :
  0 <= n < 2 ^ 53 ->
  binary_normalize float_prec float_emax n (-53) false = S754_zero false
  \/ exists m e,
       binary_normalize float_prec float_emax n (-53) false
       = S754_finite false m e.
Proof.
  intros Hn. destruct n as [|p|p]; [now left| |lia]. right.
  pose proof (digits2_pos_bound p ltac:(lia)) as Hd.
  unfold binary_normalize, binary_round, shl_align, fexp, emin,
    float_prec, float_emax.
  set (D := Z.pos (digits2_pos p)) in *.
  assert (0 < D) as HD by (unfold D; lia).
  replace (Z.max (D + -53 - 53) (3 - 1024 - 53)) with (D - 106) by lia.
  destruct (D - 106 - -53) as [|q|q] eqn:Hq; [| lia |].
  - eexists _, _. apply (binary_round_aux_exact false p (-53)); fold D; lia.
  - eexists _, _. apply (binary_round_aux_exact false _ (D - 106)); [|lia].
    rewrite digits2_pos_shift, Pos2Z.inj_add. fold D. lia.
Qed.

Lemma float_of_small_int k :
  -10 <= k <= 10 ->
  float_of_int k = S754_zero false \/ exists s m e, float_of_int k = S754_finite s m e.
Proof.
  intros Hk.
  assert (k = -10 \/ k = -9 \/ k = -8 \/ k = -7 \/ k = -6 \/ k = -5 \/ k = -4
          \/ k = -3 \/ k = -2 \/ k = -1 \/ k = 0 \/ k = 1 \/ k = 2 \/ k = 3
          \/ k = 4 \/ k = 5 \/ k = 6 \/ k = 7 \/ k = 8 \/ k = 9 \/ k = 10)
    as H by lia.
  repeat (destruct H as [->|H]; [first [now left|right; vm_compute; eauto]|]).
  subst. right. vm_compute. eauto.
Qed.

(** The float among the options of a numeric list is never NaN. *)
Lemma scaled_random_not_nan x : scaled_random x -> isnan x = false.
Proof.
  intros (n & k & Hn & Hk & ->).
  destruct (random_float_finite n Hn) as [->|(m & e & ->)];
    destruct (float_of_small_int k Hk) as [->|(s' & m' & e' & ->)];
    try reflexivity.
  unfold float_mul, SFmul.
  pose proof (binary_round_aux_not_nan (xorb false s') (Z.pos (m * m')) (e + e')
                loc_Exact ltac:(lia)) as H.
  destruct (binary_round_aux _ _ _ _ _ _); try reflexivity. congruence.
Qed.

Section NoNaN.

Context {RS : RandomSource}.

(** X16. No element of a sequence of the numeric-noise generator is a
    float NaN: the one float of a sequence is the rounded product of a
    finite [random()] and a small integer.  A NaN that [Average] or
    [Median] returns was not in its input. *)
Theorem X16_numeric_list_has_no_nan (w : world) :
  exists (l : list pyval) (g : rng),
    _generate_numeric_list w = (Ok l, mkWorld g (w_fs w))
    /\ Forall (fun v => is_float_nan v = false) l.
Proof.
  destruct (generate_numeric_list_draws w)
    as (l & g & E & _ & a & x & _ & Hx & Hall).
  exists l, g. split; [exact E|].
  eapply Forall_impl; [exact Hall|]. intros v Hv.
  destruct Hv as [->|[->|[->|[->| ->]]]]; try reflexivity.
  simpl. now apply scaled_random_not_nan.
Qed.

End NoNaN.

(** ** The filesystem and the campaigns without resources *)

Section FilesAlone.

Context {RS : RandomSource}.

Variable makeChunks : list Z -> Z -> mutator (list Z) (list (list Z)).
Variable days_between : target (datetime * datetime) Z.
Variable Average : list pyval -> mutator (list pyval) pyval.
Variable Median : list pyval -> mutator (list pyval) pyval.

Lemma for_range_keeps (P : hstate -> Prop) (body : M hstate unit) n :
  (forall s, P s -> P (snd (body s))) ->
  forall s, P s -> P (snd (for_range n body s)).
Proof.
  intros Hbody. induction n as [|n IH]; intros s Hs; simpl; [exact Hs|].
  unfold bind. specialize (Hbody s Hs).
  destruct (body s) as [[[]|e] s1]; simpl in *; auto.
Qed.

(** A trial keeps the filesystem when its generator draws and its target
    and oracle keep it. *)
Lemma trial_keeps_fs {A} (gen : M world A) (P : A -> Prop)
    (check : A -> M hstate unit) (s : hstate) :
  draws gen P ->
  (forall a s0, w_fs (env (snd (check a s0))) = w_fs (env s0)) ->
  w_fs (env (snd (bind (call gen) check s))) = w_fs (env s).
Proof.
  intros Hg Hc. unfold bind.
  destruct (call_draws _ _ s Hg) as (a & g & E & _). rewrite E.
  now rewrite Hc.
Qed.

Lemma frame_keeps_fs (trial : M hstate unit) n (w : world) :
  (forall s, w_fs (env (snd (trial s))) = w_fs (env s)) ->
  w_fs (snd (frame (for_range n trial) w)) = w_fs w.
Proof.
  intros Ht. unfold frame.
  pose proof (for_range_keeps (fun s => w_fs (env s) = w_fs w) trial n) as H.
  specialize (H (fun s Hs => eq_trans (Ht s) Hs) (mkState [] w) eq_refl).
  destruct (for_range n trial (mkState [] w)) as [[[]|e] s1]; exact H.
Qed.

(** X17. The campaigns of [makeChunks], [days_between], [Average] and
    [Median] do not touch the filesystem themselves: when the target
    leaves it as it is, so does the campaign, however it ends. *)
Theorem X17_campaigns_leave_files_alone (iterations : Z) (w : world) :
  (forall data size w0, w_fs (snd (makeChunks data size w0)) = w_fs w0) ->
  (forall x w0, w_fs (snd (days_between x w0)) = w_fs w0) ->
  (forall x w0, w_fs (snd (Average x w0)) = w_fs w0) ->
  (forall x w0, w_fs (snd (Median x w0)) = w_fs w0) ->
  w_fs (snd (fuzz_make_chunks makeChunks iterations w)) = w_fs w
  /\ w_fs (snd (fuzz_days_between days_between iterations w)) = w_fs w
  /\ w_fs (snd (fuzz_average Average iterations w)) = w_fs w
  /\ w_fs (snd (fuzz_median Median iterations w)) = w_fs w.
Proof.
  intros H1 H2 H3 H4.
  repeat split; apply frame_keeps_fs; intros s0.
  - apply (trial_keeps_fs _ _ (fun x => check_make_chunks makeChunks x.1 x.2) s0
             draws_gen_make_chunks).
    intros [data size]. revert data size. unfold check_make_chunks.
    intros data size s. simpl.
    pose proof (H1 data size (env s)) as H.
    destruct (makeChunks data size (env s)) as [[[r|e] left_] w1];
      simpl in H; rewrite try_ended.
    + unfold try_except, bind.
      destruct ((size <=? 0) && _); destruct ((0 <? size) && _); simpl; exact H.
    + destruct (exc_Exception e); simpl; exact H.
  - apply (trial_keeps_fs _ _
             (fun x => check_days_between days_between x.1 x.2) s0
             draws_gen_days_between).
    intros [d1 d2] s. simpl. unfold check_days_between. rewrite try_call.
    pose proof (H2 (d1, d2) (env s)) as H.
    destruct (days_between (d1, d2) (env s)) as [[r|e] w1]; simpl in H.
    + unfold try_except, bind. destruct (r <? 0); simpl; exact H.
    + destruct (exc_Exception e); simpl; exact H.
  - apply (trial_keeps_fs _ _ (check_average Average) s0
             generate_numeric_list_draws).
    intros payload s. unfold check_average.
    pose proof (H3 payload (env s)) as H.
    destruct (Average payload (env s)) as [[[r|e] left_] w1];
      simpl in H; rewrite try_ended.
    + unfold try_except, bind.
      destruct (is_float_nan r && truthy left_); simpl; exact H.
    + destruct (exc_Exception e); simpl; exact H.
  - apply (trial_keeps_fs _ _ (check_median Median) s0
             generate_numeric_list_draws).
    intros payload s. unfold check_median.
    pose proof (H4 payload (env s)) as H.
    destruct (Median payload (env s)) as [[[r|e] left_] w1];
      simpl in H; rewrite try_ended.
    + unfold try_except, bind.
      destruct (is_float_nan r && truthy left_); simpl; exact H.
    + destruct (exc_Exception e); simpl; exact H.
Qed.

End FilesAlone.

(** ** The further properties on concrete runs *)

Lemma X4_witness :
  let s := mkState [] (world0 []) in
  let w := mkWorld (RS := replay) [] (<["/tmp/x" := mkInode false 2]> ∅) in
  overreporting_write ("ab", "/tmp/x") (env s) = (Ok 3, w)
  /\ w_fs w !! "/tmp/x" = Some (mkInode false 2)
  /\ (3 <> 2 ->
      check_dump_content overreporting_write "ab" "/tmp/x" s
      = (Ok tt,
         mkState
           [[("function", PStr "dumpContentIntoFile");
             ("detail", PStr "Reported size mismatch");
             ("payload",
              PDict [("reported", PInt 3); ("actual", PInt 2);
                     ("path", PStr "/tmp/x")])]]
           w)).
Proof.
  split; [reflexivity|]. split; [reflexivity|].
  apply (proj2 (X4_dump_size_oracle overreporting_write "ab" "/tmp/x"
                  (mkState [] (world0 []))
                  3 (mkWorld (RS := replay) [] (<["/tmp/x" := mkInode false 2]> ∅))
                  (mkInode false 2) eq_refl eq_refl)).
Defined.

Lemma X5_witness :
  let s := mkState [] (world0 []) in
  forgetful_write ("ab", "/tmp/x") (env s) = (Ok 2, world0 [])
  /\ w_fs (world0 []) !! "/tmp/x" = None
  /\ check_dump_content forgetful_write "ab" "/tmp/x" s
     = (Ok tt,
        mkState
          [[("function", PStr "dumpContentIntoFile");
            ("detail", PStr "Exception during write");
            ("payload", PDict [("path", PStr "/tmp/x"); ("len", PInt 2)]);
            ("error",
             PStr "FileNotFoundError(2, 'No such file or directory')")]]
          (world0 [])).
Proof.
  split; [reflexivity|]. split; [reflexivity|].
  apply (X5_dump_missing_file forgetful_write "ab" "/tmp/x"
           (mkState [] (world0 [])) 2 (world0 []) eq_refl eq_refl).
Defined.

Lemma X6_witness :
  exists w', fuzz_make_chunks whole_chunk 3 (world0 [2; 5; 7; 1; 2]) = (Ok [], w').
Proof.
  apply (X6_faithful_chunker_no_issue whole_chunk 3 (world0 [2; 5; 7; 1; 2])).
  intros data size w0. unfold whole_chunk. simpl.
  destruct (Z.leb_spec size 0).
  - exists [], w0. split; [reflexivity|]. split; [reflexivity|lia].
  - exists [data], w0. split; [reflexivity|]. split; [lia|].
    intros _. simpl. apply app_nil_r.
Defined.

Lemma X7_witness :
  exists w', fuzz_days_between abs_days 2 (world0 [30; 0; 14; 0; 0; 995]) = (Ok [], w').
Proof.
  apply (X7_nonnegative_days_no_issue abs_days 2 (world0 [30; 0; 14; 0; 0; 995])).
  intros d1 d2 w0. eexists _, w0. split; [reflexivity|]. apply Z.abs_nonneg.
Defined.

Lemma X8_witness :
  exists g : list Z,
    fuzz_dump_content tmp_name write_file 2 (world0 [3; 65; 66; 67; 5; 0; 9])
    = (Ok [], mkWorld (RS := replay) g ∅).
Proof.
  apply (X8_honest_writer_leaves_no_trace tmp_name write_file 2
           (world0 [3; 65; 66; 67; 5; 0; 9])).
  - intros content path w0. eexists _, _. split; [reflexivity|]. simpl.
    split.
    + eexists. split; [apply lookup_insert_eq|reflexivity].
    + intros p Hp. now apply lookup_insert_ne.
  - intros p _. apply lookup_empty.
Defined.


Lemma X10_witness :
  fuzz_days_between signed_days 1 (world0 [30; 0; 14; 0; 0; 995])
  = (Ok [[("function", PStr "days_between");
          ("detail", PStr "Negative delta returned");
          ("payload",
           PDict [("start", PStr "2020-01-15T00:00:00");
                  ("end", PStr "2020-01-10T00:00:00");
                  ("result", PInt (-5))])]],
     world0 [])
  /\ (length
        [[("function", PStr "days_between");
          ("detail", PStr "Negative delta returned");
          ("payload",
           PDict [("start", PStr "2020-01-15T00:00:00");
                  ("end", PStr "2020-01-10T00:00:00");
                  ("result", PInt (-5))])]]
      <= range 1)%nat.
Proof.
  split; [reflexivity|].
  apply (proj1 (proj2 (X10_campaign_size_bound tmp_name one_chunk signed_days
                         write_file always_nan always_nan 1))
           (world0 [30; 0; 14; 0; 0; 995]) _ (world0 [])).
  reflexivity.
Defined.

Lemma X11_witness :
  -3 <= 0
  /\ fuzz_make_chunks one_chunk (-3) (world0 [4]) = (Ok [], world0 [4])
  /\ fuzz_average always_nan (-3) (world0 [4]) = (Ok [], world0 [4]).
Proof.
  split; [lia|].
  destruct (X11_no_iterations tmp_name one_chunk signed_days write_file
              always_nan always_nan (-3) (world0 [4]) ltac:(lia))
    as (H1 & _ & H3 & _).
  split; assumption.
Defined.

Lemma X12_witness :
  fuzz_days_between signed_days 1 (world0 [30; 0; 14; 0; 0; 995])
  = (Ok [[("function", PStr "days_between");
          ("detail", PStr "Negative delta returned");
          ("payload",
           PDict [("start", PStr "2020-01-15T00:00:00");
                  ("end", PStr "2020-01-10T00:00:00");
                  ("result", PInt (-5))])]],
     world0 [])
  /\ Forall (issue_from "days_between" ["Negative delta returned"]
               "Exception during computation")
       [[("function", PStr "days_between");
         ("detail", PStr "Negative delta returned");
         ("payload",
          PDict [("start", PStr "2020-01-15T00:00:00");
                 ("end", PStr "2020-01-10T00:00:00");
                 ("result", PInt (-5))])]].
Proof.
  split; [reflexivity|].
  apply (proj1 (proj2 (X12_issue_origin tmp_name one_chunk signed_days
                         write_file always_nan always_nan 1))
           (world0 [30; 0; 14; 0; 0; 995]) _ (world0 [])).
  reflexivity.
Defined.


Lemma X15_witness :
  let d := mkDatetime 2020 1 15 0 0 0 in
  fits_iso d /\ isoformat d = "2020-01-15T00:00:00" /\ d = d.
Proof.
  assert (fits_iso (mkDatetime 2020 1 15 0 0 0)) as H
    by (unfold fits_iso; simpl; lia).
  split; [exact H|]. split; [reflexivity|].
  apply (X15_isoformat_identifies (mkDatetime 2020 1 15 0 0 0)
           (mkDatetime 2020 1 15 0 0 0) H H eq_refl).
Defined.

Lemma X17_witness :
  w_fs (snd (fuzz_make_chunks one_chunk 2 (world0 [1; 5; 0; 1])))
  = w_fs (world0 [1; 5; 0; 1])
  /\ w_fs (snd (fuzz_days_between signed_days 2 (world0 [1; 5; 0; 1])))
     = w_fs (world0 [1; 5; 0; 1])
  /\ w_fs (snd (fuzz_average always_nan 2 (world0 [1; 5; 0; 1])))
     = w_fs (world0 [1; 5; 0; 1])
  /\ w_fs (snd (fuzz_median always_nan 2 (world0 [1; 5; 0; 1])))
     = w_fs (world0 [1; 5; 0; 1]).
Proof.
  apply (X17_campaigns_leave_files_alone one_chunk signed_days always_nan
           always_nan 2 (world0 [1; 5; 0; 1])); intros; reflexivity.
Defined.
